(** * The Phoenix event-file checker (checkers/event_file_checker.py)

    A shallow embedding of the checker and the properties of its
    specification.  The checker walks a decoded JSON value and either returns
    or raises; it is embedded as functions into an error type that keeps
    Python's other exceptions apart from [PhoenixFormatError]. *)

From Stdlib Require Import String Ascii List ZArith Lia Bool DecimalString.
From Stdlib Require Import Floats.SpecFloat.
From Stdlib Require Import Permutation.
Import ListNotations.
Set Warnings "-register-all".
Local Open Scope string_scope.
Local Open Scope Z_scope.

(** ** Decoded JSON values

    What [json.load] hands to [check]: [None], [bool], [int], [float], [str],
    [list] and [dict] with [str] keys.  A dict keeps its members in insertion
    order, which is the order the checker's [for] loops visit them in; its
    keys are distinct, which the properties below assume where they need it.
    A [str] is carried as the sequence of its bytes: the checker compares
    strings and concatenates them, nothing else.  Of a float the checker reads
    the type only. *)

Inductive json : Type :=
| JNone
| JBool (b : bool)
| JInt (n : Z)
| JFloat (x : spec_float)
| JStr (s : string)
| JList (items : list json)
| JDict (members : list (string * json)).

(** The runtime types [type(j)] can be, and the types the checker tests for. *)
Inductive pytype : Type :=
| py_NoneType | py_bool | py_int | py_float | py_str | py_list | py_dict.

Definition type_of (j : json) : pytype :=
  match j with
  | JNone => py_NoneType
  | JBool _ => py_bool
  | JInt _ => py_int
  | JFloat _ => py_float
  | JStr _ => py_str
  | JList _ => py_list
  | JDict _ => py_dict
  end.

(** [typ.__name__] *)
Definition type_name (t : pytype) : string :=
  match t with
  | py_NoneType => "NoneType"
  | py_bool => "bool"
  | py_int => "int"
  | py_float => "float"
  | py_str => "str"
  | py_list => "list"
  | py_dict => "dict"
  end.

Definition pytype_eqb (a b : pytype) : bool :=
  match a, b with
  | py_NoneType, py_NoneType | py_bool, py_bool | py_int, py_int
  | py_float, py_float | py_str, py_str | py_list, py_list
  | py_dict, py_dict => true
  | _, _ => false
  end.

(** [isinstance(j, typ)]: the type itself, or [bool] as the subclass of [int]. *)
Definition isinstance (j : json) (typ : pytype) : bool :=
  pytype_eqb (type_of j) typ
  || (pytype_eqb (type_of j) py_bool && pytype_eqb typ py_int).

(** ** Exceptions and results *)

Inductive exn : Type :=
| PhoenixFormatError (message : string)
| TypeError
| KeyError (key : string)
| IndexError.

Inductive result (A : Type) : Type :=
| Return (a : A)
| Raise (e : exn).
Arguments Return {A} a.
Arguments Raise {A} e.

Definition bind {A B : Type} (c : result A) (k : A -> result B) : result B :=
  match c with
  | Return a => k a
  | Raise e => Raise e
  end.

Declare Scope py_scope.
Delimit Scope py_scope with py.
Notation "x <- c ;; k" := (bind c (fun x => k))
  (at level 61, c at next level, right associativity) : py_scope.
Notation "c ;; k" := (bind c (fun _ => k))
  (at level 61, right associativity) : py_scope.
Local Open Scope py_scope.

(** A [for] loop whose body can raise: the first exception ends the loop. *)
Fixpoint for_each {A : Type} (l : list A) (body : A -> result unit) : result unit :=
  match l with
  | [] => Return tt
  | x :: rest => body x ;; for_each rest body
  end.

(** The same with the counter [n] the checker keeps next to the loop
    ([n = start] before it, [n += 1] at the end of the body). *)
Fixpoint for_in {A : Type} (l : list A) (n : Z) (body : A -> Z -> result unit)
  : result unit :=
  match l with
  | [] => Return tt
  | x :: rest => body x n ;; for_in rest (n + 1) body
  end.

(** ** Python operations the checker applies to JSON values

    The checker calls [len], iterates and subscripts only after an
    [isinstance] test (or a call that raises unless the test holds).  Each
    operation is given here for the type the test establishes; on a value of
    another type it is [TypeError], and [check_clean] shows that no call
    reaches that case. *)

Definition as_list (j : json) : result (list json) :=
  match j with
  | JList items => Return items
  | _ => Raise TypeError
  end.

Definition as_dict (j : json) : result (list (string * json)) :=
  match j with
  | JDict members => Return members
  | _ => Raise TypeError
  end.

(** [len(j)] *)
Definition py_len (j : json) : result Z :=
  items <- as_list j ;; Return (Z.of_nat (length items)).

(** [j[i]] for a list [j] and a literal index [i] *)
Definition py_index (j : json) (i : nat) : result json :=
  items <- as_list j ;;
  match nth_error items i with
  | Some x => Return x
  | None => Raise IndexError
  end.

Fixpoint dict_get (members : list (string * json)) (key : string) : option json :=
  match members with
  | [] => None
  | (k, v) :: rest => if String.eqb k key then Some v else dict_get rest key
  end.

Definition dict_keys {V : Type} (members : list (string * V)) : list string :=
  map fst members.

(** [key in d] *)
Definition dict_in (key : string) (members : list (string * json)) : bool :=
  match dict_get members key with
  | Some _ => true
  | None => false
  end.

(** [d[key]] *)
Definition dict_getitem (members : list (string * json)) (key : string) : result json :=
  match dict_get members key with
  | Some v => Return v
  | None => Raise (KeyError key)
  end.

(** [key in j] and [j[key]] for a string key *)
Definition py_in (key : string) (j : json) : result bool :=
  members <- as_dict j ;; Return (dict_in key members).

Definition py_getitem (j : json) (key : string) : result json :=
  members <- as_dict j ;; dict_getitem members key.

(** [j == s] for a string literal [s] *)
Definition py_eq_str (j : json) (s : string) : bool :=
  match j with
  | JStr t => String.eqb t s
  | _ => false
  end.

(** The double-quote character of the messages. *)
Definition dquote : string := String (ascii_of_nat 34) EmptyString.

(** [%d] applied to [n] *)
Definition fmt_d (n : Z) : string := NilZero.string_of_int (Z.to_int n).

Example fmt_d_examples :
  fmt_d 0 = "0" /\ fmt_d 3 = "3" /\ fmt_d 12 = "12" /\ fmt_d (-1) = "-1".
Proof. repeat split; reflexivity. Qed.

(** ** Schema tables

    [genericCheck] is driven by a dict [d] whose values it unpacks with
    [isOpt, checker = d[key]].  The per-type checkers build those values as
    tuples [(isOpt, checker)]; [eventCheck] builds them as set displays
    [{False, noCheck}], so what the unpacking yields there is the set's
    iteration order. *)

Definition checker : Type := json -> string -> result unit.

Inductive pyobj : Type :=
| PyBool (b : bool)
| PyFunction (f : checker).

(** A schema value: a 2-tuple, or a set display [{a, b}] of two unequal
    objects given with their hashes. *)
Inductive entry : Type :=
| PyTuple2 (a b : pyobj)
| PySet2 (a : pyobj) (hash_a : Z) (b : pyobj) (hash_b : Z).

Definition schema : Type := list (string * entry).

(** CPython builds [{a, b}] by inserting [a] and then [b] in an empty table
    of 8 slots (mask 7).  An insertion starts at slot [hash & mask] and, while
    the slot is taken by an unequal key, moves on with
    [perturb >>= 5; i = (i * 5 + 1 + perturb) & mask], [perturb] starting as
    the hash read as an unsigned 64-bit word; with 8 slots there is no linear
    probing in between.  [shifts] counts the shifts after which a 64-bit
    [perturb] is zero: from then on the next slot is [(i * 5 + 1) & 7], which
    is never the slot left. *)
Fixpoint set_probe (shifts : nat) (taken i perturb : Z) : Z :=
  if negb (i =? taken) then i
  else match shifts with
       | O => Z.land (i * 5 + 1) 7
       | S k =>
           let perturb' := Z.shiftr perturb 5 in
           set_probe k taken (Z.land (i * 5 + 1 + perturb') 7) perturb'
       end.

(** The slots of [a] and [b] in the table of [{a, b}]. *)
Definition set_slots (hash_a hash_b : Z) : Z * Z :=
  let slot_a := Z.land hash_a 7 in
  (slot_a, set_probe 13 slot_a (Z.land hash_b 7) (hash_b mod 2 ^ 64)).

(** [x, y = e]: a tuple gives its components, a set its elements in slot order. *)
Definition unpack2 (e : entry) : pyobj * pyobj :=
  match e with
  | PyTuple2 a b => (a, b)
  | PySet2 a hash_a b hash_b =>
      let (slot_a, slot_b) := set_slots hash_a hash_b in
      if slot_a <? slot_b then (a, b) else (b, a)
  end.

(** Truth value of an object ([not isOpt]): a function is true. *)
Definition truthy (o : pyobj) : bool :=
  match o with
  | PyBool b => b
  | PyFunction _ => true
  end.

(** [o(j, name)]: calling a [bool] is a [TypeError]. *)
Definition call (o : pyobj) (j : json) (name : string) : result unit :=
  match o with
  | PyFunction f => f j name
  | PyBool _ => Raise TypeError
  end.

(** ** The generic checkers

    The schema [d] is a dict display with distinct keys: the loop over its
    keys, with [d[key]] in the body, visits its items in the order written. *)

Definition genericCheck (j : json) (d : schema) (objName objType : string)
  : result unit :=
  match j with
  | JDict members =>
      for_each d (fun '(key, e) =>
        let (isOpt, checker) := unpack2 e in
        if negb (truthy isOpt) && negb (dict_in key members) then
          Raise (PhoenixFormatError
                   ("Expected a '" ++ key ++ "' attribute in " ++ objName))
        else if dict_in key members then
          v <- dict_getitem members key ;;
          call checker v (objName ++ ", attribute '" ++ key ++ "'")
        else Return tt)
  | _ =>
      Raise (PhoenixFormatError
               ("Expected " ++ objType ++ " to be dictionaries. Not the case for "
                ++ objName))
  end.

Definition genericTypeCheck (j : json) (objName : string) (typ : pytype)
  : result unit :=
  if negb (isinstance j typ) then
    Raise (PhoenixFormatError
             ("Expected the " ++ objName ++ " to be of type " ++ dquote
              ++ type_name typ ++ dquote ++ ", found " ++ type_name (type_of j)))
  else Return tt.

Definition noCheck (j : json) (name : string) : result unit := Return tt.

Definition floatCheck (j : json) (name : string) : result unit :=
  if negb (isinstance j py_float) && negb (isinstance j py_int) then
    Raise (PhoenixFormatError
             ("Expected the " ++ name ++ " to be of type float or int, found "
              ++ type_name (type_of j)))
  else Return tt.

Definition colorAttributeCheck (j : json) (name : string) : result unit :=
  genericTypeCheck j name py_str.

(** [nitems] defaults to [-1] in the source; the callers that leave it out
    pass [-1] here. *)
Definition floatListCheck (j : json) (name : string) (nitems : Z) : result unit :=
  genericTypeCheck j name py_list ;;
  len <- py_len j ;;
  if (0 <=? nitems) && negb (len =? nitems) then
    Raise (PhoenixFormatError
             ("Expected " ++ fmt_d nitems ++ " entries in " ++ name ++ ", got "
              ++ fmt_d len))
  else
    items <- as_list j ;;
    for_in items 0 (fun item n => floatCheck item (name ++ ", item " ++ fmt_d n)).

Definition posAttributeCheck (positions : json) (name : string) : result unit :=
  genericTypeCheck positions name py_list ;;
  items <- as_list positions ;;
  for_in items 0 (fun pos n => floatListCheck pos (name ++ ", item " ++ fmt_d n) 3).

(** ** The checkers of the data types

    The table [entries] each checker builds is a definition of its own here,
    named after the checker. *)

Definition tracks_entries : schema :=
  [ ("pos", PyTuple2 (PyBool false) (PyFunction posAttributeCheck));
    ("color", PyTuple2 (PyBool true) (PyFunction colorAttributeCheck));
    ("dparams", PyTuple2 (PyBool true) (PyFunction (fun j n => floatListCheck j n 5)));
    ("d0", PyTuple2 (PyBool true) (PyFunction floatCheck));
    ("z0", PyTuple2 (PyBool true) (PyFunction floatCheck));
    ("phi", PyTuple2 (PyBool true) (PyFunction floatCheck));
    ("eta", PyTuple2 (PyBool true) (PyFunction floatCheck)) ].

Definition tracksCheck (data_name : string) (data : json) : result unit :=
  genericTypeCheck data data_name py_list ;;
  items <- as_list data ;;
  for_in items 1 (fun track n =>
    genericCheck track tracks_entries (data_name ++ ", track " ++ fmt_d n) "Track").

Definition jets_entries : schema :=
  [ ("eta", PyTuple2 (PyBool false) (PyFunction floatCheck));
    ("phi", PyTuple2 (PyBool false) (PyFunction floatCheck));
    ("theta", PyTuple2 (PyBool true) (PyFunction floatCheck));
    ("energy", PyTuple2 (PyBool true) (PyFunction floatCheck));
    ("et", PyTuple2 (PyBool true) (PyFunction floatCheck));
    ("coneR", PyTuple2 (PyBool true) (PyFunction floatCheck));
    ("color", PyTuple2 (PyBool true) (PyFunction colorAttributeCheck)) ].

Definition jetsCheck (data_name : string) (data : json) : result unit :=
  genericTypeCheck data data_name py_list ;;
  items <- as_list data ;;
  for_in items 1 (fun jet n =>
    genericCheck jet jets_entries (data_name ++ ", jet " ++ fmt_d n) "Jet").

(** ** Values for the concrete runs *)

(** A stand-in for Python's [repr] in the concrete runs, none of which formats
    a value that is not a string. *)
Definition no_repr (j : json) : string := EmptyString.

(** A float for the examples: 1.0 *)
Definition one : json := JFloat (S754_finite false 1 0).

(** A document of three events: a valid one, one without [run number], and
    one that is not an object. *)
Definition three_events : list (string * json) :=
  [ ("e1", JDict [("event number", JInt 1); ("run number", JInt 1)]);
    ("e2", JDict [("event number", JInt 2)]);
    ("e3", JList []) ].

Section Checker.

(** [str(j)] for a value that is not a [str]: Python's [repr], which the
    checker only ever copies into a message. *)
Variable py_repr : json -> string.

(** [%s] applied to [j] *)
Definition fmt_s (j : json) : string :=
  match j with
  | JStr s => s
  | _ => py_repr j
  end.

Definition hitTypeCheck (j : json) (name : string) : result unit :=
  if negb (py_eq_str j "Point" || py_eq_str j "Box" || py_eq_str j "Line") then
    Raise (PhoenixFormatError
             ("Invalid hit type " ++ dquote ++ fmt_s j ++ dquote ++ " in " ++ name
              ++ ". Valid values are Point, Line and Box"))
  else Return tt.

Definition hits_entries : schema :=
  [ ("type", PyTuple2 (PyBool true) (PyFunction hitTypeCheck));
    ("pos", PyTuple2 (PyBool false) (PyFunction (fun j n => floatListCheck j n (-1))));
    ("color", PyTuple2 (PyBool true) (PyFunction colorAttributeCheck)) ].

(** The body of the loop of [hitsCheck] over a list of positions. *)
Definition hitsCheck_position (data_name : string) (position : json) (n : Z)
  : result unit :=
  let pos_name := data_name ++ ", position " ++ fmt_d n in
  genericTypeCheck position data_name py_list ;;
  plen <- py_len position ;;
  if negb (plen =? 3) then
    Raise (PhoenixFormatError
             ("Expected Hits to be triplets of values. Not the case for " ++ pos_name))
  else
    x <- py_index position 0 ;;
    floatCheck x (pos_name ++ ", coordinate x") ;;
    y <- py_index position 1 ;;
    floatCheck y (pos_name ++ ", coordinate y") ;;
    z <- py_index position 2 ;;
    floatCheck z (pos_name ++ ", coordinate z").

(** The body of its loop over a list of Hit objects. *)
Definition hitsCheck_hit (data_name : string) (hit : json) (n : Z) : result unit :=
  genericCheck hit hits_entries (data_name ++ ", hit " ++ fmt_d n) "Hit" ;;
  has_type <- py_in "type" hit ;;
  typ <- (if has_type : bool then py_getitem hit "type" else Return (JStr "Point")) ;;
  pos <- py_getitem hit "pos" ;;
  npos <- py_len pos ;;
  let expNpos := if py_eq_str typ "Point" then 3 else 6 in
  if negb (npos =? expNpos) then
    Raise (PhoenixFormatError
             ("Expected " ++ fmt_d expNpos ++ " coordinates per Hit in " ++ data_name
              ++ ". Found " ++ fmt_d npos ++ " in hit " ++ fmt_d n))
  else Return tt.

Definition hitsCheck (data_name : string) (data : json) : result unit :=
  genericTypeCheck data data_name py_list ;;
  len <- py_len data ;;
  if len =? 0 then Return tt
  else
    first <- py_index data 0 ;;
    if isinstance first py_list then
      items <- as_list data ;; for_in items 0 (hitsCheck_position data_name)
    else
      items <- as_list data ;; for_in items 0 (hitsCheck_hit data_name).

Definition clusters_entries : schema :=
  [ ("energy", PyTuple2 (PyBool false) (PyFunction floatCheck));
    ("phi", PyTuple2 (PyBool false) (PyFunction floatCheck));
    ("eta", PyTuple2 (PyBool false) (PyFunction floatCheck)) ].

Definition clustersCheck (data_name : string) (data : json) : result unit :=
  genericTypeCheck data data_name py_list ;;
  items <- as_list data ;;
  for_in items 0 (fun item n =>
    genericCheck item clusters_entries (data_name ++ ", entry " ++ fmt_d n)
      "CaloCluster/CaloCell").

Definition planar_entries : schema :=
  [ ("plane", PyTuple2 (PyBool false) (PyFunction (fun j n => floatListCheck j n 4)));
    ("cells", PyTuple2 (PyBool false)
                (PyFunction (fun j name =>
                   genericTypeCheck j (name ++ ", cells attribute") py_list))) ].

Definition planar_cellEntries : schema :=
  [ ("cellSize", PyTuple2 (PyBool false) (PyFunction floatCheck));
    ("energy", PyTuple2 (PyBool false) (PyFunction floatCheck));
    ("pos", PyTuple2 (PyBool false) (PyFunction (fun j n => floatListCheck j n 2)));
    ("color", PyTuple2 (PyBool true) (PyFunction colorAttributeCheck)) ].

Definition planarCaloCheck (data_name : string) (data : json) : result unit :=
  genericTypeCheck data data_name py_dict ;;
  genericCheck data planar_entries data_name "PlanarCaloCells" ;;
  cells <- py_getitem data "cells" ;;
  items <- as_list cells ;;
  for_in items 0 (fun cell n =>
    genericCheck cell planar_cellEntries (data_name ++ ", cell " ++ fmt_d n) "CaloCell").

Definition vertices_entries : schema :=
  [ ("x", PyTuple2 (PyBool false) (PyFunction floatCheck));
    ("y", PyTuple2 (PyBool false) (PyFunction floatCheck));
    ("z", PyTuple2 (PyBool false) (PyFunction floatCheck));
    ("color", PyTuple2 (PyBool true) (PyFunction colorAttributeCheck)) ].

Definition verticesCheck (data_name : string) (data : json) : result unit :=
  genericTypeCheck data data_name py_list ;;
  items <- as_list data ;;
  for_in items 0 (fun item n =>
    genericCheck item vertices_entries (data_name ++ ", vertex " ++ fmt_d n) "Vertex").

Definition missingE_entries : schema :=
  [ ("etx", PyTuple2 (PyBool false) (PyFunction floatCheck));
    ("ety", PyTuple2 (PyBool false) (PyFunction floatCheck));
    ("color", PyTuple2 (PyBool true) (PyFunction colorAttributeCheck)) ].

Definition missingECheck (data_name : string) (data : json) : result unit :=
  genericTypeCheck data data_name py_list ;;
  items <- as_list data ;;
  for_in items 0 (fun item n =>
    genericCheck item missingE_entries (data_name ++ ", object " ++ fmt_d n)
      "MissingEnergy").

Definition compoundCheck (data_name : string) (data : json) : result unit :=
  Return tt.

(** ** The table of data types and the drivers *)

Definition KnownDataTypes : list (string * (string -> json -> result unit)) :=
  [ ("Tracks", tracksCheck);
    ("Jets", jetsCheck);
    ("Hits", hitsCheck);
    ("CaloClusters", clustersCheck);
    ("CaloCells", clustersCheck);
    ("PlanarCaloCells", planarCaloCheck);
    ("Vertices", verticesCheck);
    ("MissingEnergy", missingECheck);
    ("Muons", compoundCheck);
    ("Photons", compoundCheck);
    ("Electrons", compoundCheck) ].

Fixpoint table_get {V : Type} (table : list (string * V)) (key : string) : option V :=
  match table with
  | [] => None
  | (k, v) :: rest => if String.eqb k key then Some v else table_get rest key
  end.

(** [data] is a dict: the one caller, [eventCheck], passes [event[data]] only
    under [isinstance(event[data], dict)]. *)
Definition eventDataCheck (event_name data_type : string)
  (data : list (string * json)) : result unit :=
  match table_get KnownDataTypes data_type with
  | None =>
      Raise (PhoenixFormatError ("Unknown data type found : '" ++ data_type ++ "'"))
  | Some check_collection =>
      for_each (dict_keys data) (fun collection_name =>
        collection <- dict_getitem data collection_name ;;
        check_collection
          ("event '" ++ event_name ++ "', collection '" ++ collection_name ++ "'")
          collection)
  end.

(** The schema of an event.  Its values are the set displays
    [{False, noCheck}]: [hash(False)] is 0, and the hash of the function
    object [noCheck] derives from its address, so it is an input,
    [noCheck_hash], that differs from one Python process to the next. *)
Definition event_entries (noCheck_hash : Z) : schema :=
  [ ("event number", PySet2 (PyBool false) 0 (PyFunction noCheck) noCheck_hash);
    ("run number", PySet2 (PyBool false) 0 (PyFunction noCheck) noCheck_hash) ].

Definition eventCheck (noCheck_hash : Z) (event_name : string) (event : json)
  : result unit :=
  let entries := event_entries noCheck_hash in
  genericCheck event entries ("top level event " ++ event_name) "Event" ;;
  members <- as_dict event ;;
  for_each (dict_keys members) (fun data =>
    v <- dict_getitem members data ;;
    match v with
    | JDict collections => eventDataCheck event_name data collections
    | _ => Return tt
    end).

Definition check (noCheck_hash : Z) (topJson : json) : result unit :=
  match topJson with
  | JDict events =>
      for_each (dict_keys events) (fun eventKey =>
        event <- dict_getitem events eventKey ;;
        eventCheck noCheck_hash eventKey event)
  | _ => Raise (PhoenixFormatError "Expected a dictionary at top level")
  end.

(** ** Notions the properties are stated with *)

(** A value the numeric check accepts: [isinstance] of [float] or of [int]. *)
Definition is_number (j : json) : bool :=
  isinstance j py_float || isinstance j py_int.

(** The outcome is a return or a [PhoenixFormatError], no other exception. *)
Definition clean {A : Type} (r : result A) : Prop :=
  match r with
  | Return _ => True
  | Raise (PhoenixFormatError _) => True
  | Raise _ => False
  end.

(** The first exception of a sequence of outcomes, in order. *)
Fixpoint first_raise (outcomes : list (result unit)) : result unit :=
  match outcomes with
  | [] => Return tt
  | Return _ :: rest => first_raise rest
  | Raise e :: _ => Raise e
  end.

(** A raw hit: a list of exactly three numbers. *)
Definition raw_triplet (position : json) : bool :=
  match position with
  | JList [x; y; z] => is_number x && is_number y && is_number z
  | _ => false
  end.

(** A typed hit: an object with a list of numbers under [pos], of length 3
    for the type [Point] (also when [type] is absent) and 6 for [Line] and
    [Box], no other [type], and a string under [color] if there is one. *)
Definition typed_hit (hit : json) : bool :=
  match hit with
  | JDict members =>
      match dict_get members "pos" with
      | Some (JList coords) =>
          forallb is_number coords
          && match dict_get members "type" with
             | None => Z.of_nat (length coords) =? 3
             | Some typ =>
                 (py_eq_str typ "Point" && (Z.of_nat (length coords) =? 3))
                 || ((py_eq_str typ "Line" || py_eq_str typ "Box")
                     && (Z.of_nat (length coords) =? 6))
             end
          && match dict_get members "color" with
             | None => true
             | Some color => isinstance color py_str
             end
      | _ => false
      end
  | _ => false
  end.

(** The eleven names of data types. *)
Definition recognized_tags : list string :=
  [ "Tracks"; "Jets"; "Hits"; "CaloClusters"; "CaloCells"; "PlanarCaloCells";
    "Vertices"; "MissingEnergy"; "Muons"; "Photons"; "Electrons" ].

(** The members of an event that hold a mapping, in the order of the event. *)
Definition mapping_members (members : list (string * json))
  : list (string * list (string * json)) :=
  flat_map (fun '(key, v) =>
              match v with
              | JDict collections => [(key, collections)]
              | _ => []
              end)
           members.

(** A track whose [pos] is a list of lists of three numbers. *)
Definition track_pos_ok (track : json) : bool :=
  match track with
  | JDict members =>
      match dict_get members "pos" with
      | Some (JList positions) => forallb raw_triplet positions
      | _ => false
      end
  | _ => false
  end.

(** The names [tracksCheck] gives to the track that follows the tracks
    [before], and to its position that follows the positions [good]. *)
Definition track_name (data_name : string) (before : list json) : string :=
  data_name ++ ", track " ++ fmt_d (1 + Z.of_nat (length before)).

Definition position_name (data_name : string) (before good : list json) : string :=
  track_name data_name before ++ ", attribute 'pos', item "
  ++ fmt_d (Z.of_nat (length good)).

(** The message reports a list that should have had 3 entries. *)
Definition cites_triplet_length (r : result unit) : bool :=
  match r with
  | Raise (PhoenixFormatError message) => prefix "Expected 3 entries in " message
  | _ => false
  end.

(** The check returns. *)
Definition passes (r : result unit) : bool :=
  match r with
  | Return _ => true
  | Raise _ => false
  end.

(** What [genericCheck] asks of the members of a dict for one schema entry. *)
Definition entry_ok (members : list (string * json)) (objName : string)
  (key : string) (e : entry) : Prop :=
  (truthy (fst (unpack2 e)) = false -> dict_in key members = true)
  /\ (forall v, dict_get members key = Some v ->
        call (snd (unpack2 e)) v (objName ++ ", attribute '" ++ key ++ "'")
        = Return tt).

(** An entry whose checker is a function that raises format errors only. *)
Definition clean_entry (e : entry) : Prop :=
  match snd (unpack2 e) with
  | PyFunction f => forall j name, clean (f j name)
  | PyBool _ => False
  end.

(** The event schema with tuples in the place of the set displays. *)
Definition event_entries_tuples : schema :=
  [ ("event number", PyTuple2 (PyBool false) (PyFunction noCheck));
    ("run number", PyTuple2 (PyBool false) (PyFunction noCheck)) ].

(** The items of a list with the numbers a counted loop gives them. *)
Fixpoint numbered {A : Type} (start : Z) (l : list A) : list (Z * A) :=
  match l with
  | [] => []
  | x :: rest => (start, x) :: numbered (start + 1) rest
  end.

(** What one entry of a schema makes of the members of an object: the
    exception for a mandatory key that is missing, the outcome of the entry's
    checker on the value that is there. *)
Definition entry_outcome (members : list (string * json)) (objName : string)
  (key_entry : string * entry) : result unit :=
  let (key, e) := key_entry in
  let (isOpt, chk) := unpack2 e in
  match dict_get members key with
  | None =>
      if truthy isOpt then Return tt
      else Raise (PhoenixFormatError
                    ("Expected a '" ++ key ++ "' attribute in " ++ objName))
  | Some v => call chk v (objName ++ ", attribute '" ++ key ++ "'")
  end.

(** ** Validity of a document

    What the checkers accept, written on the values alone: the predicates
    below name no checker and build no message. *)

Definition is_str (j : json) : bool := isinstance j py_str.

Definition is_list (j : json) : bool := isinstance j py_list.

(** A list all of whose elements satisfy [P]. *)
Definition list_of (P : json -> bool) (j : json) : bool :=
  match j with
  | JList items => forallb P items
  | _ => false
  end.

(** A list of numbers, of length [nitems] unless [nitems] is negative. *)
Definition number_list (nitems : Z) (j : json) : bool :=
  match j with
  | JList items =>
      forallb is_number items
      && ((nitems <? 0) || (Z.of_nat (length items) =? nitems))
  | _ => false
  end.

(** The member [key] of an object: if it is there its value satisfies [P],
    and it may be missing only when [optional]. *)
Definition field_ok (members : list (string * json)) (key : string)
  (optional : bool) (P : json -> bool) : bool :=
  match dict_get members key with
  | Some v => P v
  | None => optional
  end.

(** An object whose members satisfy [fields]. *)
Definition object_of (fields : list (string * json) -> bool) (j : json) : bool :=
  match j with
  | JDict members => fields members
  | _ => false
  end.

Definition valid_track : json -> bool :=
  object_of (fun m =>
    field_ok m "pos" false (list_of raw_triplet)
    && field_ok m "color" true is_str
    && field_ok m "dparams" true (number_list 5)
    && field_ok m "d0" true is_number
    && field_ok m "z0" true is_number
    && field_ok m "phi" true is_number
    && field_ok m "eta" true is_number).

Definition valid_jet : json -> bool :=
  object_of (fun m =>
    field_ok m "eta" false is_number
    && field_ok m "phi" false is_number
    && field_ok m "theta" true is_number
    && field_ok m "energy" true is_number
    && field_ok m "et" true is_number
    && field_ok m "coneR" true is_number
    && field_ok m "color" true is_str).

Definition valid_cluster : json -> bool :=
  object_of (fun m =>
    field_ok m "energy" false is_number
    && field_ok m "phi" false is_number
    && field_ok m "eta" false is_number).

Definition valid_cell : json -> bool :=
  object_of (fun m =>
    field_ok m "cellSize" false is_number
    && field_ok m "energy" false is_number
    && field_ok m "pos" false (number_list 2)
    && field_ok m "color" true is_str).

Definition valid_planar : json -> bool :=
  object_of (fun m =>
    field_ok m "plane" false (number_list 4)
    && field_ok m "cells" false (list_of valid_cell)).

Definition valid_vertex : json -> bool :=
  object_of (fun m =>
    field_ok m "x" false is_number
    && field_ok m "y" false is_number
    && field_ok m "z" false is_number
    && field_ok m "color" true is_str).

Definition valid_missingE : json -> bool :=
  object_of (fun m =>
    field_ok m "etx" false is_number
    && field_ok m "ety" false is_number
    && field_ok m "color" true is_str).

(** A list of hits: empty, or all raw triplets or all typed hits, as its
    first element is a list or not. *)
Definition valid_hits (data : json) : bool :=
  match data with
  | JList [] => true
  | JList (first :: rest) =>
      if isinstance first py_list then forallb raw_triplet (first :: rest)
      else forallb typed_hit (first :: rest)
  | _ => false
  end.

(** What a collection must be under each name of data type. *)
Definition collection_validity : list (string * (json -> bool)) :=
  [ ("Tracks", list_of valid_track);
    ("Jets", list_of valid_jet);
    ("Hits", valid_hits);
    ("CaloClusters", list_of valid_cluster);
    ("CaloCells", list_of valid_cluster);
    ("PlanarCaloCells", valid_planar);
    ("Vertices", list_of valid_vertex);
    ("MissingEnergy", list_of valid_missingE);
    ("Muons", fun _ => true);
    ("Photons", fun _ => true);
    ("Electrons", fun _ => true) ].

(** The collections [data] stored in an event under the name [data_type]. *)
Definition valid_data (data_type : string) (data : list (string * json)) : bool :=
  match table_get collection_validity data_type with
  | Some valid => forallb (fun '(_, collection) => valid collection) data
  | None => false
  end.

(** An event: an object with the two mandatory keys, whose members that are
    objects are valid collections of the data type their key names. *)
Definition valid_event (event : json) : bool :=
  object_of (fun m =>
    dict_in "event number" m
    && dict_in "run number" m
    && forallb (fun '(key, v) =>
                  match v with
                  | JDict collections => valid_data key collections
                  | _ => true
                  end) m) event.

Definition valid_document (topJson : json) : bool :=
  object_of (forallb (fun '(_, event) => valid_event event)) topJson.

(** The keys are distinct in the document, in its events and in their
    members that are objects, as they are in every decoded JSON text. *)
Definition distinct_keys_event (event : json) : Prop :=
  match event with
  | JDict members =>
      NoDup (dict_keys members)
      /\ Forall (fun '(_, v) =>
                   match v with
                   | JDict collections => NoDup (dict_keys collections)
                   | _ => True
                   end) members
  | _ => True
  end.

Definition distinct_keys_document (events : list (string * json)) : Prop :=
  NoDup (dict_keys events) /\ Forall (fun '(_, event) => distinct_keys_event event) events.

(** A valid event for the concrete runs: the two mandatory keys, a scalar
    member, and collections of Tracks, Jets and Hits. *)
Definition sample_event : json :=
  JDict [ ("event number", JInt 7);
          ("run number", JInt 1);
          ("time", JStr "12:00");
          ("Tracks", JDict [("fitted", JList [JDict [("pos", JList [JList [JInt 0; JInt 0; JInt 0];
                                                                      JList [JInt 1; JInt 2; JInt 3]]);
                                                     ("color", JStr "0xff0000")]])]);
          ("Jets", JDict [("anti-kt", JList [JDict [("eta", JInt 1); ("phi", JBool true)]])]);
          ("Hits", JDict [("pixel", JList [JList [JInt 1; JInt 2; JInt 3]]);
                          ("strips", JList [])]) ].

(** An event that lacks [run number]. *)
Definition short_event : json := JDict [("event number", JInt 8)].

(** ** Loops and results *)

Lemma bind_Return_inv {A B : Type} (c : result A) (k : A -> result B) (b : B) :
  bind c k = Return b -> exists a, c = Return a /\ k a = Return b.
Proof. destruct c as [a|e]; simpl; intros H; [eauto | discriminate]. Qed.

Lemma clean_bind {A B : Type} (c : result A) (k : A -> result B) :
  clean c -> (forall a, c = Return a -> clean (k a)) -> clean (bind c k).
Proof. destruct c as [a|e]; simpl; auto. Qed.

Lemma clean_cases {A : Type} (r : result A) :
  clean r -> (exists a, r = Return a) \/ (exists msg, r = Raise (PhoenixFormatError msg)).
Proof. destruct r as [a|[msg| |k|]]; simpl; intros H; try contradiction; eauto. Qed.

Lemma for_each_first_raise {A : Type} (l : list A) (body : A -> result unit) :
  for_each l body = first_raise (map body l).
Proof.
  induction l as [|x rest IH]; simpl; [reflexivity|].
  destruct (body x) as [[]|e]; simpl; auto.
Qed.

Lemma for_each_app {A : Type} (l1 l2 : list A) (body : A -> result unit) :
  for_each (l1 ++ l2) body = (for_each l1 body ;; for_each l2 body).
Proof.
  induction l1 as [|x rest IH]; simpl; [reflexivity|].
  destruct (body x) as [[]|e]; simpl; auto.
Qed.

Lemma for_each_ext {A : Type} (l : list A) (f g : A -> result unit) :
  (forall x, In x l -> f x = g x) -> for_each l f = for_each l g.
Proof.
  induction l as [|x rest IH]; simpl; intros H; [reflexivity|].
  rewrite (H x) by auto. rewrite IH by auto. reflexivity.
Qed.

Lemma for_each_clean {A : Type} (l : list A) (body : A -> result unit) :
  (forall x, In x l -> clean (body x)) -> clean (for_each l body).
Proof.
  induction l as [|x rest IH]; simpl; intros H; [exact I|].
  apply clean_bind; auto.
Qed.

Lemma for_each_Return {A : Type} (l : list A) (body : A -> result unit) :
  for_each l body = Return tt <-> Forall (fun x => body x = Return tt) l.
Proof.
  induction l as [|x rest IH]; simpl.
  - split; auto.
  - split.
    + intros H. apply bind_Return_inv in H as [[] [Hx Hrest]].
      constructor; [exact Hx | apply IH, Hrest].
    + intros H. inversion H as [|? ? Hx Hrest]; subst.
      rewrite Hx. simpl. apply IH, Hrest.
Qed.

Lemma for_in_clean {A : Type} (l : list A) (body : A -> Z -> result unit) :
  forall n, (forall x k, In x l -> clean (body x k)) -> clean (for_in l n body).
Proof.
  induction l as [|x rest IH]; simpl; intros n H; [exact I|].
  apply clean_bind; auto.
Qed.

Lemma for_in_Return {A : Type} (P : A -> bool) (l : list A)
  (body : A -> Z -> result unit) :
  (forall x k, In x l -> (body x k = Return tt <-> P x = true)) ->
  forall n, for_in l n body = Return tt <-> forallb P l = true.
Proof.
  induction l as [|x rest IH]; simpl; intros H n.
  - split; auto.
  - rewrite andb_true_iff, <- (H x n) by auto.
    rewrite <- (IH (fun y k Hy => H y k (or_intror Hy)) (n + 1)).
    split.
    + intros E. apply bind_Return_inv in E as [[] [Hx Hrest]]. auto.
    + intros [Hx Hrest]. rewrite Hx. exact Hrest.
Qed.

Lemma for_in_app {A : Type} (l1 l2 : list A) (body : A -> Z -> result unit) :
  forall n, for_in (l1 ++ l2) n body
            = (for_in l1 n body ;; for_in l2 (n + Z.of_nat (length l1)) body).
Proof.
  induction l1 as [|x rest IH]; intros n.
  - simpl. rewrite Z.add_0_r. reflexivity.
  - cbn [app for_in length]. destruct (body x n) as [[]|e]; simpl; [|reflexivity].
    rewrite IH. replace (n + 1 + Z.of_nat (length rest))
      with (n + Z.of_nat (S (length rest))) by lia.
    reflexivity.
Qed.

Lemma for_in_existsb {A : Type} (P : A -> bool) (l : list A)
  (body : A -> Z -> result unit) :
  (forall x k, clean (body x k)) ->
  (forall x k, P x = false -> body x k <> Return tt) ->
  forall n, existsb (fun x => negb (P x)) l = true ->
            exists msg, for_in l n body = Raise (PhoenixFormatError msg).
Proof.
  intros Hclean Hbad.
  induction l as [|x rest IH]; simpl; intros n H; [discriminate|].
  destruct (clean_cases _ (Hclean x n)) as [[[] Hx]|[msg Hx]]; rewrite Hx; simpl; eauto.
  apply IH. destruct (P x) eqn:HP; simpl in H; [exact H|].
  exfalso. exact (Hbad x n HP Hx).
Qed.

Lemma Forall_equiv {A : Type} (P Q : A -> Prop) (l : list A) :
  (forall x, P x <-> Q x) -> Forall P l <-> Forall Q l.
Proof.
  intros H. split; apply Forall_impl; intros x; apply H.
Qed.

(** ** Dicts *)

Lemma dict_get_In_keys members key :
  In key (dict_keys members) -> exists v, dict_get members key = Some v.
Proof.
  induction members as [|[k v] rest IH]; simpl; intros H; [contradiction|].
  destruct (String.eqb_spec k key) as [->|Hne]; [eauto|].
  destruct H as [H|H]; [contradiction | auto].
Qed.

Lemma dict_get_fresh before after key v :
  ~ In key (dict_keys before) ->
  dict_get (before ++ (key, v) :: after) key = Some v.
Proof.
  induction before as [|[k w] rest IH]; simpl; intros H.
  - rewrite String.eqb_refl. reflexivity.
  - destruct (String.eqb_spec k key) as [->|Hne]; [tauto | apply IH; tauto].
Qed.

Lemma dict_get_other before after key v other :
  other <> key ->
  dict_get (before ++ (key, v) :: after) other = dict_get (before ++ after) other.
Proof.
  intros Hne. induction before as [|[k w] rest IH]; simpl.
  - destruct (String.eqb_spec key other) as [->|_]; [contradiction | reflexivity].
  - destruct (String.eqb k other); auto.
Qed.

Lemma dict_get_absent members key :
  ~ In key (dict_keys members) -> dict_get members key = None.
Proof.
  induction members as [|[k w] rest IH]; simpl; intros H; [reflexivity|].
  destruct (String.eqb_spec k key) as [->|Hne]; [tauto | apply IH; tauto].
Qed.

Lemma dict_get_NoDup members key v :
  NoDup (dict_keys members) -> In (key, v) members -> dict_get members key = Some v.
Proof.
  induction members as [|[k w] rest IH]; simpl; intros Hnd Hin; [contradiction|].
  inversion Hnd as [|? ? Hfresh Hrest]; subst.
  destruct Hin as [[= -> ->]|Hin].
  - rewrite String.eqb_refl. reflexivity.
  - destruct (String.eqb_spec k key) as [->|Hne]; [|auto].
    exfalso. apply Hfresh. change key with (fst (key, v)). apply in_map, Hin.
Qed.

(** Over a dict, [for key in d] with [d[key]] in the body visits the members. *)
Lemma for_each_dict_items members (f : string -> json -> result unit) :
  NoDup (dict_keys members) ->
  for_each (dict_keys members) (fun key => v <- dict_getitem members key ;; f key v)
  = for_each members (fun '(key, v) => f key v).
Proof.
  intros Hnd.
  assert (Hmap : forall (l : list (string * json)) (g : string -> result unit),
             for_each (dict_keys l) g = for_each l (fun kv => g (fst kv))).
  { induction l as [|kv rest IH]; intros g; simpl; [reflexivity|].
    rewrite <- IH. reflexivity. }
  rewrite Hmap. apply for_each_ext. intros [key v] Hin. simpl.
  unfold dict_getitem. rewrite (dict_get_NoDup _ _ _ Hnd Hin). reflexivity.
Qed.

Lemma for_each_mapping_members members
  (f : string -> list (string * json) -> result unit) :
  for_each members (fun '(key, v) =>
                      match v with
                      | JDict collections => f key collections
                      | _ => Return tt
                      end)
  = for_each (mapping_members members) (fun '(key, collections) => f key collections).
Proof.
  induction members as [|[key v] rest IH]; simpl; [reflexivity|].
  rewrite for_each_app, <- IH.
  destruct v; simpl; try reflexivity.
  destruct (f key members); reflexivity.
Qed.

(** ** The set displays of the event schema *)

Lemma next_slot_differs taken :
  0 <= taken < 8 -> Z.land (taken * 5 + 1) 7 <> taken.
Proof.
  intros H.
  assert (taken = 0 \/ taken = 1 \/ taken = 2 \/ taken = 3 \/ taken = 4
          \/ taken = 5 \/ taken = 6 \/ taken = 7) as Hcases by lia.
  repeat (destruct Hcases as [->|Hcases]; [vm_compute; discriminate|]).
  subst taken. vm_compute. discriminate.
Qed.

Lemma set_probe_free shifts taken :
  0 <= taken < 8 ->
  forall i perturb, 0 <= i ->
    0 <= set_probe shifts taken i perturb /\ set_probe shifts taken i perturb <> taken.
Proof.
  intros Htaken. induction shifts as [|k IH]; intros i perturb Hi; simpl.
  - destruct (Z.eqb_spec i taken) as [->|Hne]; simpl.
    + split; [apply Z.land_nonneg; lia | apply next_slot_differs, Htaken].
    + split; assumption.
  - destruct (Z.eqb_spec i taken) as [->|Hne]; simpl.
    + apply IH. apply Z.land_nonneg. lia.
    + split; assumption.
Qed.

(** [False] hashes to slot 0 and the function lands in a later slot, whatever
    its hash: the unpacking of [{False, f}] is that of [(False, f)]. *)
Lemma unpack2_set_False (f : pyobj) (hash_f : Z) :
  unpack2 (PySet2 (PyBool false) 0 f hash_f) = (PyBool false, f).
Proof.
  unfold unpack2, set_slots. change (Z.land 0 7) with 0.
  destruct (set_probe_free 13 0 ltac:(lia) (Z.land hash_f 7) (hash_f mod 2 ^ 64))
    as [Hnonneg Hne].
  { apply Z.land_nonneg. lia. }
  destruct (Z.ltb_spec 0 (set_probe 13 0 (Z.land hash_f 7) (hash_f mod 2 ^ 64)));
    [reflexivity | lia].
Qed.

(** ** [genericCheck] *)

Lemma genericCheck_Return members (d : schema) objName objType :
  genericCheck (JDict members) d objName objType = Return tt
  <-> Forall (fun '(key, e) => entry_ok members objName key e) d.
Proof.
  unfold genericCheck. rewrite for_each_Return.
  apply Forall_equiv. intros [key e]. unfold entry_ok, dict_in, dict_getitem.
  destruct (unpack2 e) as [isOpt chk]; simpl.
  destruct (dict_get members key) as [v|] eqn:Hget; simpl.
  - rewrite andb_false_r. split.
    + intros H. split; [reflexivity|]. intros w [= <-]. exact H.
    + intros [_ H]. apply H. reflexivity.
  - rewrite andb_true_r. destruct (truthy isOpt); simpl; split.
    + intros _. split; [discriminate|]. intros w [=].
    + reflexivity.
    + discriminate.
    + intros [H _]. specialize (H eq_refl). discriminate.
Qed.

Lemma genericCheck_Return_dict j (d : schema) objName objType :
  genericCheck j d objName objType = Return tt -> exists members, j = JDict members.
Proof. destruct j; simpl; try discriminate. eauto. Qed.

Lemma genericCheck_clean j (d : schema) objName objType :
  Forall (fun '(_, e) => clean_entry e) d -> clean (genericCheck j d objName objType).
Proof.
  intros Hd. unfold genericCheck.
  destruct j; try exact I.
  apply for_each_clean. intros [key e] Hin.
  rewrite Forall_forall in Hd. specialize (Hd _ Hin). simpl in Hd.
  unfold clean_entry in Hd. destruct (unpack2 e) as [isOpt chk]. simpl in Hd.
  destruct (negb (truthy isOpt) && negb (dict_in key members)); [exact I|].
  unfold dict_in, dict_getitem. destruct (dict_get members key) as [v|]; [|exact I].
  simpl. destruct chk as [b|f]; [contradiction | apply Hd].
Qed.

Lemma genericCheck_same_entries j (d1 d2 : schema) objName objType :
  Forall2 (fun e1 e2 => fst e1 = fst e2 /\ unpack2 (snd e1) = unpack2 (snd e2)) d1 d2 ->
  genericCheck j d1 objName objType = genericCheck j d2 objName objType.
Proof.
  intros H. destruct j; try reflexivity. simpl.
  induction H as [|[k1 e1] [k2 e2] r1 r2 [Hk He] _ IH]; simpl in *; [reflexivity|].
  subst k2. rewrite He, IH. reflexivity.
Qed.

(** ** The checkers raise format errors only *)

Lemma genericTypeCheck_clean j objName typ : clean (genericTypeCheck j objName typ).
Proof. unfold genericTypeCheck. destruct (isinstance j typ); exact I. Qed.

Lemma genericTypeCheck_Return j objName typ :
  genericTypeCheck j objName typ = Return tt <-> isinstance j typ = true.
Proof.
  unfold genericTypeCheck. destruct (isinstance j typ); simpl; split;
    solve [reflexivity | discriminate].
Qed.

Lemma isinstance_list j : isinstance j py_list = true -> exists items, j = JList items.
Proof. destruct j; try discriminate. eauto. Qed.

Lemma isinstance_dict j : isinstance j py_dict = true -> exists members, j = JDict members.
Proof. destruct j; try discriminate. eauto. Qed.

Lemma floatCheck_clean j name : clean (floatCheck j name).
Proof.
  unfold floatCheck.
  destruct (negb (isinstance j py_float) && negb (isinstance j py_int)); exact I.
Qed.

Lemma floatCheck_Return j name : floatCheck j name = Return tt <-> is_number j = true.
Proof.
  unfold floatCheck, is_number.
  destruct (isinstance j py_float), (isinstance j py_int); simpl; split;
    solve [reflexivity | discriminate].
Qed.

Lemma colorAttributeCheck_clean j name : clean (colorAttributeCheck j name).
Proof. apply genericTypeCheck_clean. Qed.

Lemma floatListCheck_clean j name nitems : clean (floatListCheck j name nitems).
Proof.
  unfold floatListCheck. apply clean_bind; [apply genericTypeCheck_clean|].
  intros [] Hlist. apply genericTypeCheck_Return, isinstance_list in Hlist as [items ->].
  simpl. destruct ((0 <=? nitems) && negb (Z.of_nat (length items) =? nitems));
    [exact I|].
  apply for_in_clean. intros. apply floatCheck_clean.
Qed.

Lemma floatListCheck_Return j name nitems :
  floatListCheck j name nitems = Return tt
  <-> exists items, j = JList items /\ forallb is_number items = true
                    /\ (0 <= nitems -> Z.of_nat (length items) = nitems).
Proof.
  unfold floatListCheck. destruct j; simpl;
    try (split; [discriminate | intros [? [[=] _]]]).
  destruct (Z.leb_spec 0 nitems) as [Hn|Hn];
    [destruct (Z.eqb_spec (Z.of_nat (length items)) nitems) as [Hlen|Hlen]|]; simpl.
  - rewrite (for_in_Return is_number) by (intros; apply floatCheck_Return).
    split; [eauto | intros [? [[= <-] [H _]]]; exact H].
  - split; [discriminate | intros [? [[= <-] [_ H]]]; tauto].
  - rewrite (for_in_Return is_number) by (intros; apply floatCheck_Return).
    split; [intros H; eexists; repeat split; [exact H | lia]
           | intros [? [[= <-] [H _]]]; exact H].
Qed.

Lemma posAttributeCheck_clean positions name : clean (posAttributeCheck positions name).
Proof.
  unfold posAttributeCheck. apply clean_bind; [apply genericTypeCheck_clean|].
  intros [] Hlist. apply genericTypeCheck_Return, isinstance_list in Hlist as [items ->].
  simpl. apply for_in_clean. intros. apply floatListCheck_clean.
Qed.

(** ** The Hits checker *)

Lemma passes_true r : passes r = true <-> r = Return tt.
Proof. destruct r as [[]|e]; simpl; split; solve [reflexivity | discriminate]. Qed.

Lemma passes_seq (c k : result unit) : passes (c ;; k) = passes c && passes k.
Proof. destruct c as [[]|e]; reflexivity. Qed.

Lemma passes_floatCheck j name : passes (floatCheck j name) = is_number j.
Proof.
  unfold floatCheck, is_number.
  destruct (isinstance j py_float), (isinstance j py_int); reflexivity.
Qed.

Lemma passes_floatListCheck j name :
  passes (floatListCheck j name (-1))
  = match j with JList items => forallb is_number items | _ => false end.
Proof.
  destruct (passes (floatListCheck j name (-1))) eqn:E.
  - apply passes_true, floatListCheck_Return in E as [items [-> [H _]]]. auto.
  - destruct j; try reflexivity.
    destruct (forallb is_number items) eqn:F; [|reflexivity].
    rewrite <- E. apply passes_true. apply floatListCheck_Return.
    eexists. repeat split; [exact F | lia].
Qed.

Lemma hitsCheck_position_passes data_name position n :
  passes (hitsCheck_position data_name position n) = raw_triplet position.
Proof.
  unfold hitsCheck_position, raw_triplet.
  destruct position as [| | | | |items|]; try reflexivity.
  destruct items as [|x [|y [|z [|w more]]]]; try reflexivity.
  - cbn [genericTypeCheck isinstance type_of pytype_eqb orb negb bind py_len as_list
         length py_index nth_error].
    change (negb (Z.of_nat 3 =? 3)) with false. cbv iota.
    rewrite !passes_seq, !passes_floatCheck, andb_assoc. reflexivity.
  - cbn [genericTypeCheck isinstance type_of pytype_eqb orb negb bind py_len as_list].
    destruct (Z.eqb_spec (Z.of_nat (length (x :: y :: z :: w :: more))) 3) as [H|H];
      [simpl length in H; lia | reflexivity].
Qed.

Lemma hitsCheck_position_clean data_name position n :
  clean (hitsCheck_position data_name position n).
Proof.
  unfold hitsCheck_position.
  destruct position as [| | | | |items|]; try exact I.
  destruct items as [|x [|y [|z [|w more]]]]; try exact I.
  - cbn [genericTypeCheck isinstance type_of pytype_eqb orb negb bind py_len as_list
         length py_index nth_error].
    change (negb (Z.of_nat 3 =? 3)) with false. cbv iota.
    repeat (apply clean_bind; [apply floatCheck_clean | intros _ _]).
    apply floatCheck_clean.
  - cbn [genericTypeCheck isinstance type_of pytype_eqb orb negb bind py_len as_list].
    destruct (Z.eqb_spec (Z.of_nat (length (x :: y :: z :: w :: more))) 3) as [H|H];
      [simpl length in H; lia | exact I].
Qed.

Lemma hitTypeCheck_clean j name : clean (hitTypeCheck j name).
Proof.
  unfold hitTypeCheck.
  destruct (negb (py_eq_str j "Point" || py_eq_str j "Box" || py_eq_str j "Line"));
    exact I.
Qed.

Lemma passes_hitTypeCheck j name :
  passes (hitTypeCheck j name)
  = py_eq_str j "Point" || py_eq_str j "Box" || py_eq_str j "Line".
Proof.
  unfold hitTypeCheck.
  destruct (py_eq_str j "Point" || py_eq_str j "Box" || py_eq_str j "Line");
    reflexivity.
Qed.

Lemma passes_colorAttributeCheck j name :
  passes (colorAttributeCheck j name) = isinstance j py_str.
Proof.
  unfold colorAttributeCheck, genericTypeCheck.
  destruct (isinstance j py_str); reflexivity.
Qed.

Lemma hits_entries_clean : Forall (fun '(_, e) => clean_entry e) hits_entries.
Proof.
  repeat constructor; unfold clean_entry; simpl; intros;
    auto using hitTypeCheck_clean, floatListCheck_clean, colorAttributeCheck_clean.
Qed.

Lemma hitsCheck_hit_passes data_name hit n :
  passes (hitsCheck_hit data_name hit n) = typed_hit hit.
Proof.
  unfold hitsCheck_hit, typed_hit.
  destruct hit as [| | | | | |members]; try reflexivity.
  rewrite passes_seq.
  replace (passes (genericCheck (JDict members) hits_entries
                     (data_name ++ ", hit " ++ fmt_d n) "Hit"))
    with (match dict_get members "type" with
          | Some typ => py_eq_str typ "Point" || py_eq_str typ "Box"
                        || py_eq_str typ "Line"
          | None => true
          end
          && match dict_get members "pos" with
             | Some (JList coords) => forallb is_number coords
             | _ => false
             end
          && match dict_get members "color" with
             | Some color => isinstance color py_str
             | None => true
             end).
  2:{ unfold genericCheck, hits_entries.
      cbn [for_each unpack2 truthy negb andb call].
      unfold dict_in, dict_getitem.
      destruct (dict_get members "type") as [typ|];
        destruct (dict_get members "pos") as [pos|];
        destruct (dict_get members "color") as [color|];
        cbn [bind negb];
        rewrite ?passes_seq, ?passes_hitTypeCheck, ?passes_floatListCheck,
          ?passes_colorAttributeCheck; cbn [passes];
        rewrite ?andb_true_r, ?andb_false_r, ?andb_true_l, ?andb_assoc; reflexivity. }
  unfold py_in, py_getitem, dict_in, dict_getitem. cbn [as_dict bind].
  destruct (dict_get members "pos") as [[| | | | |coords|]|];
    try (rewrite ?andb_false_r; reflexivity).
  cbn [bind py_len as_list].
  destruct (dict_get members "type") as [typ|]; cbn [bind].
  - assert (Hexcl : py_eq_str typ "Point" = true ->
                    py_eq_str typ "Box" = false /\ py_eq_str typ "Line" = false).
    { destruct typ; try discriminate. simpl.
      intros H. apply String.eqb_eq in H. subst s. split; reflexivity. }
    assert (Hexcl2 : py_eq_str typ "Point" = false ->
             py_eq_str typ "Line" || py_eq_str typ "Box" = false ->
             py_eq_str typ "Point" || py_eq_str typ "Box" || py_eq_str typ "Line" = false).
    { intros -> H. apply orb_false_iff in H as [-> ->]. reflexivity. }
    destruct (py_eq_str typ "Point") eqn:HP.
    + destruct (Hexcl eq_refl) as [-> ->]. simpl.
      destruct (Z.of_nat (length coords) =? 3), (forallb is_number coords),
        (dict_get members "color") as [color|]; try destruct (isinstance color py_str);
        reflexivity.
    + simpl.
      destruct (py_eq_str typ "Box"), (py_eq_str typ "Line"),
        (Z.of_nat (length coords) =? 6), (forallb is_number coords),
        (dict_get members "color") as [color|]; try destruct (isinstance color py_str);
        reflexivity.
  - simpl.
    destruct (Z.of_nat (length coords) =? 3), (forallb is_number coords),
      (dict_get members "color") as [color|]; try destruct (isinstance color py_str);
      reflexivity.
Qed.

Lemma hitsCheck_hit_clean data_name hit n : clean (hitsCheck_hit data_name hit n).
Proof.
  unfold hitsCheck_hit.
  apply clean_bind; [apply genericCheck_clean, hits_entries_clean|].
  intros [] Hgen.
  destruct (genericCheck_Return_dict _ _ _ _ Hgen) as [members ->].
  apply genericCheck_Return in Hgen. unfold hits_entries in Hgen.
  apply Forall_cons_iff in Hgen as [_ Hgen].
  apply Forall_cons_iff in Hgen as [[Hin Hpos] _].
  specialize (Hin eq_refl). unfold dict_in in Hin.
  destruct (dict_get members "pos") as [pos|] eqn:Hget; [|discriminate].
  specialize (Hpos pos eq_refl). cbn [unpack2 snd call] in Hpos.
  apply floatListCheck_Return in Hpos as [coords [-> _]].
  unfold py_in, py_getitem, dict_in, dict_getitem. cbn [as_dict bind]. rewrite Hget.
  destruct (dict_get members "type") as [typ|]; cbn [bind py_len as_list];
    match goal with |- clean (if ?b then _ else _) => destruct b; exact I end.
Qed.

Lemma hitsCheck_cons data_name first rest :
  hitsCheck data_name (JList (first :: rest))
  = if isinstance first py_list
    then for_in (first :: rest) 0 (hitsCheck_position data_name)
    else for_in (first :: rest) 0 (hitsCheck_hit data_name).
Proof.
  unfold hitsCheck.
  cbn [genericTypeCheck isinstance type_of pytype_eqb orb negb bind py_len as_list
       py_index nth_error].
  destruct (Z.eqb_spec (Z.of_nat (length (first :: rest))) 0) as [H|_];
    [simpl length in H; lia|].
  destruct (isinstance first py_list); reflexivity.
Qed.

(** C1: [hitsCheck] on a non-empty list reads the representation off the
    first element alone.  If that element is a list, the check returns exactly
    when every element is a list of three numbers; otherwise it returns
    exactly when every element is a Hit object: a [pos] that is a list of
    numbers, of length 3 for the type [Point] or no [type] and 6 for [Line]
    and [Box], and a valid [type] and [color] where present.  In every other
    case it raises a [PhoenixFormatError]. *)
Theorem hitsCheck_representation (data_name : string) (first : json) (rest : list json) :
  (hitsCheck data_name (JList (first :: rest)) = Return tt
   <-> (if isinstance first py_list
        then forallb raw_triplet (first :: rest)
        else forallb typed_hit (first :: rest)) = true)
  /\ (hitsCheck data_name (JList (first :: rest)) = Return tt
      \/ exists msg,
           hitsCheck data_name (JList (first :: rest)) = Raise (PhoenixFormatError msg)).
Proof.
  rewrite hitsCheck_cons. split.
  - destruct (isinstance first py_list).
    + apply for_in_Return. intros x k _.
      rewrite <- passes_true, hitsCheck_position_passes. reflexivity.
    + apply for_in_Return. intros x k _.
      rewrite <- passes_true, hitsCheck_hit_passes. reflexivity.
  - assert (Hclean : clean (if isinstance first py_list
                            then for_in (first :: rest) 0 (hitsCheck_position data_name)
                            else for_in (first :: rest) 0 (hitsCheck_hit data_name))).
    { destruct (isinstance first py_list); apply for_in_clean; intros;
        [apply hitsCheck_position_clean | apply hitsCheck_hit_clean]. }
    destruct (clean_cases _ Hclean) as [[[] H]|[msg H]]; eauto.
Qed.

(** C9: on the empty list [hitsCheck] returns at once; the first element is
    not read and no element is checked. *)
Theorem hitsCheck_empty (data_name : string) :
  hitsCheck data_name (JList []) = Return tt.
Proof. reflexivity. Qed.

(** ** The other checkers of data types *)

Lemma list_checker_clean data data_name start (body : json -> Z -> result unit) :
  (forall x n, clean (body x n)) ->
  clean (genericTypeCheck data data_name py_list ;;
         items <- as_list data ;; for_in items start body).
Proof.
  intros Hbody. apply clean_bind; [apply genericTypeCheck_clean|].
  intros [] Hlist. apply genericTypeCheck_Return, isinstance_list in Hlist as [items ->].
  simpl. apply for_in_clean. auto.
Qed.

Ltac clean_entries :=
  repeat constructor; unfold clean_entry; simpl; intros;
  auto using floatCheck_clean, floatListCheck_clean, colorAttributeCheck_clean,
    posAttributeCheck_clean, genericTypeCheck_clean.

Lemma tracksCheck_clean data_name data : clean (tracksCheck data_name data).
Proof.
  apply list_checker_clean. intros. apply genericCheck_clean. clean_entries.
Qed.

Lemma jetsCheck_clean data_name data : clean (jetsCheck data_name data).
Proof.
  apply list_checker_clean. intros. apply genericCheck_clean. clean_entries.
Qed.

Lemma hitsCheck_clean data_name data : clean (hitsCheck data_name data).
Proof.
  destruct data as [| | | | |items|]; try exact I.
  destruct items as [|first rest]; [exact I|].
  rewrite hitsCheck_cons.
  destruct (isinstance first py_list); apply for_in_clean; intros;
    [apply hitsCheck_position_clean | apply hitsCheck_hit_clean].
Qed.

Lemma clustersCheck_clean data_name data : clean (clustersCheck data_name data).
Proof.
  apply list_checker_clean. intros. apply genericCheck_clean. clean_entries.
Qed.

Lemma verticesCheck_clean data_name data : clean (verticesCheck data_name data).
Proof.
  apply list_checker_clean. intros. apply genericCheck_clean. clean_entries.
Qed.

Lemma missingECheck_clean data_name data : clean (missingECheck data_name data).
Proof.
  apply list_checker_clean. intros. apply genericCheck_clean. clean_entries.
Qed.

Lemma planarCaloCheck_clean data_name data : clean (planarCaloCheck data_name data).
Proof.
  unfold planarCaloCheck. apply clean_bind; [apply genericTypeCheck_clean|].
  intros [] Hdict. apply genericTypeCheck_Return, isinstance_dict in Hdict as [members ->].
  apply clean_bind; [apply genericCheck_clean; clean_entries|].
  intros [] Hgen. apply genericCheck_Return in Hgen. unfold planar_entries in Hgen.
  apply Forall_cons_iff in Hgen as [_ Hgen].
  apply Forall_cons_iff in Hgen as [[Hin Hcells] _].
  specialize (Hin eq_refl). unfold dict_in in Hin.
  destruct (dict_get members "cells") as [cells|] eqn:Hget; [|discriminate].
  specialize (Hcells cells eq_refl). cbn [unpack2 snd call] in Hcells.
  apply genericTypeCheck_Return, isinstance_list in Hcells as [items ->].
  unfold py_getitem, dict_getitem. cbn [as_dict bind]. rewrite Hget. cbn [as_list bind].
  apply for_in_clean. intros. apply genericCheck_clean. clean_entries.
Qed.

Lemma compoundCheck_clean data_name data : clean (compoundCheck data_name data).
Proof. exact I. Qed.

Lemma KnownDataTypes_clean data_type check_collection :
  table_get KnownDataTypes data_type = Some check_collection ->
  forall data_name data, clean (check_collection data_name data).
Proof.
  unfold KnownDataTypes. cbn [table_get]. intros H.
  repeat match type of H with
         | context [String.eqb ?a data_type] => destruct (String.eqb a data_type)
         end;
    inversion H; subst;
    auto using tracksCheck_clean, jetsCheck_clean, hitsCheck_clean, clustersCheck_clean,
      planarCaloCheck_clean, verticesCheck_clean, missingECheck_clean,
      compoundCheck_clean.
Qed.

(** ** The drivers *)

Lemma dict_getitem_key members key :
  In key (dict_keys members) -> exists v, dict_getitem members key = Return v.
Proof.
  intros H. destruct (dict_get_In_keys _ _ H) as [v Hv].
  exists v. unfold dict_getitem. rewrite Hv. reflexivity.
Qed.

Lemma eventDataCheck_clean event_name data_type data :
  clean (eventDataCheck event_name data_type data).
Proof.
  unfold eventDataCheck.
  destruct (table_get KnownDataTypes data_type) as [check_collection|] eqn:Htable;
    [|exact I].
  apply for_each_clean. intros collection_name Hin.
  destruct (dict_getitem_key _ _ Hin) as [v ->]. simpl.
  apply (KnownDataTypes_clean _ _ Htable).
Qed.

Lemma genericCheck_event_entries noCheck_hash j objName objType :
  genericCheck j (event_entries noCheck_hash) objName objType
  = genericCheck j event_entries_tuples objName objType.
Proof.
  apply genericCheck_same_entries. unfold event_entries, event_entries_tuples.
  repeat (constructor; [split; [reflexivity | apply unpack2_set_False]|]).
  constructor.
Qed.

Lemma genericCheck_event members noCheck_hash objName objType :
  genericCheck (JDict members) (event_entries noCheck_hash) objName objType
  = match dict_get members "event number", dict_get members "run number" with
    | None, _ =>
        Raise (PhoenixFormatError ("Expected a 'event number' attribute in " ++ objName))
    | Some _, None =>
        Raise (PhoenixFormatError ("Expected a 'run number' attribute in " ++ objName))
    | Some _, Some _ => Return tt
    end.
Proof.
  rewrite genericCheck_event_entries. unfold genericCheck, event_entries_tuples.
  cbn [for_each unpack2 truthy negb andb call]. unfold dict_in, dict_getitem.
  destruct (dict_get members "event number"), (dict_get members "run number");
    reflexivity.
Qed.

Lemma eventCheck_clean noCheck_hash event_name event :
  clean (eventCheck noCheck_hash event_name event).
Proof.
  unfold eventCheck. rewrite genericCheck_event_entries.
  apply clean_bind; [apply genericCheck_clean; clean_entries|].
  intros [] Hgen. destruct (genericCheck_Return_dict _ _ _ _ Hgen) as [members ->].
  simpl. apply for_each_clean. intros data Hin.
  destruct (dict_getitem_key _ _ Hin) as [v ->]. simpl.
  destruct v; try exact I. apply eventDataCheck_clean.
Qed.

(** No operation of the section on Python operations is reached on a value
    of a type it is not given for: [check] raises nothing but format errors. *)
Lemma check_clean noCheck_hash topJson : clean (check noCheck_hash topJson).
Proof.
  unfold check. destruct topJson; try exact I.
  apply for_each_clean. intros eventKey Hin.
  destruct (dict_getitem_key _ _ Hin) as [event ->]. simpl.
  apply eventCheck_clean.
Qed.

(** ** Properties of the specification *)

(** C2: an event object that lacks [event number] or [run number] is
    refused by [eventCheck] with the message that names a key it lacks:
    [event number] when that one is missing, [run number] when only that one
    is; when both keys are there, the check of the two keys returns whatever
    their values are. *)
Theorem eventCheck_mandatory_keys (noCheck_hash : Z) (event_name : string)
  (members : list (string * json)) :
  (dict_in "event number" members = false \/ dict_in "run number" members = false ->
   exists key,
     In key ["event number"; "run number"]
     /\ dict_in key members = false
     /\ eventCheck noCheck_hash event_name (JDict members)
        = Raise (PhoenixFormatError
                   ("Expected a '" ++ key ++ "' attribute in top level event "
                    ++ event_name)))
  /\ (dict_in "event number" members = false ->
      eventCheck noCheck_hash event_name (JDict members)
      = Raise (PhoenixFormatError
                 ("Expected a 'event number' attribute in top level event "
                  ++ event_name)))
  /\ (dict_in "event number" members = true ->
      dict_in "run number" members = false ->
      eventCheck noCheck_hash event_name (JDict members)
      = Raise (PhoenixFormatError
                 ("Expected a 'run number' attribute in top level event " ++ event_name)))
  /\ (dict_in "event number" members = true ->
      dict_in "run number" members = true ->
      genericCheck (JDict members) (event_entries noCheck_hash)
        ("top level event " ++ event_name) "Event" = Return tt).
Proof.
  unfold eventCheck. rewrite genericCheck_event. unfold dict_in.
  destruct (dict_get members "event number") eqn:Hevent,
    (dict_get members "run number") eqn:Hrun;
    (split; [|repeat split; intros; solve [reflexivity | discriminate]]);
    intros [H|H]; try discriminate H;
    first [ solve [exists "event number"; rewrite Hevent; simpl; auto]
          | solve [exists "run number"; rewrite Hrun; simpl; auto] ].
Qed.

(** C5: [genericCheck] reads the value only at the keys of the schema: two
    dicts that agree on those keys get the same outcome, whatever other keys
    either holds. *)
Theorem genericCheck_ignores_unlisted_keys (d : schema)
  (members1 members2 : list (string * json)) (objName objType : string) :
  (forall key, In key (dict_keys d) -> dict_get members1 key = dict_get members2 key) ->
  genericCheck (JDict members1) d objName objType
  = genericCheck (JDict members2) d objName objType.
Proof.
  intros Hagree. unfold genericCheck. apply for_each_ext. intros [key e] Hin.
  assert (Hkey : dict_get members1 key = dict_get members2 key).
  { apply Hagree. unfold dict_keys. change key with (fst (key, e)). apply in_map, Hin. }
  unfold dict_in, dict_getitem. rewrite Hkey. reflexivity.
Qed.

(** C8: the outcome of [check] on a document does not depend on the one
    thing that varies between runs, the hash of the function [noCheck]: any
    two runs give the same return or the same exception with the same
    message. *)
Theorem check_deterministic (hash1 hash2 : Z) (topJson : json) :
  check hash1 topJson = check hash2 topJson.
Proof.
  unfold check. destruct topJson; try reflexivity.
  apply for_each_ext. intros eventKey _.
  destruct (dict_getitem members eventKey) as [event|e]; [|reflexivity].
  simpl. unfold eventCheck. rewrite !genericCheck_event_entries. reflexivity.
Qed.

(** C10: the numeric checks accept the booleans: [floatCheck] returns on
    [True] and [False], so does [floatListCheck] on a list of booleans,
    without or with the matching length, and so do a Jet with boolean [eta]
    and [phi] and a Track with boolean [dparams]. *)
Theorem floatCheck_accepts_bool (b : bool) (bs : list bool) (name : string) :
  floatCheck (JBool b) name = Return tt
  /\ floatListCheck (JList (map JBool bs)) name (-1) = Return tt
  /\ floatListCheck (JList (map JBool bs)) name (Z.of_nat (length bs)) = Return tt
  /\ jetsCheck name (JList [JDict [("eta", JBool b); ("phi", JBool b)]]) = Return tt
  /\ tracksCheck name
       (JList [JDict [("pos", JList []);
                      ("dparams", JList (map JBool [b; b; b; b; b]))]]) = Return tt.
Proof.
  assert (Hall : forallb is_number (map JBool bs) = true).
  { induction bs as [|c rest IH]; simpl; auto. }
  repeat split; try reflexivity.
  - apply floatListCheck_Return. eexists. repeat split; [exact Hall | lia].
  - apply floatListCheck_Return. eexists. repeat split; [exact Hall|].
    intros _. rewrite length_map. reflexivity.
Qed.

Lemma eventCheck_mapping_members noCheck_hash event_name members :
  NoDup (dict_keys members) ->
  eventCheck noCheck_hash event_name (JDict members)
  = (genericCheck (JDict members) (event_entries noCheck_hash)
       ("top level event " ++ event_name) "Event" ;;
     for_each (mapping_members members) (fun '(data, collections) =>
       eventDataCheck event_name data collections)).
Proof.
  intros Hnd. unfold eventCheck. f_equal. cbn [as_dict bind].
  rewrite <- for_each_mapping_members.
  rewrite <- (for_each_dict_items members
                (fun data v => match v with
                               | JDict collections =>
                                   eventDataCheck event_name data collections
                               | _ => Return tt
                               end) Hnd).
  reflexivity.
Qed.

(** The loop of [eventCheck] over the keys passes over a member that is not
    a dict as if it were not there. *)
Lemma event_loop_skip before after key v (f : string -> list (string * json) -> result unit) :
  isinstance v py_dict = false ->
  ~ In key (dict_keys (before ++ after)) ->
  for_each (dict_keys (before ++ (key, v) :: after)) (fun data =>
    w <- dict_getitem (before ++ (key, v) :: after) data ;;
    match w with JDict collections => f data collections | _ => Return tt end)
  = for_each (dict_keys (before ++ after)) (fun data =>
      w <- dict_getitem (before ++ after) data ;;
      match w with JDict collections => f data collections | _ => Return tt end).
Proof.
  intros Hv Hfresh. unfold dict_keys in *. rewrite !map_app in *. cbn [map fst].
  rewrite in_app_iff in Hfresh.
  set (body members := fun data =>
         w <- dict_getitem members data ;;
         match w with JDict collections => f data collections | _ => Return tt end).
  assert (Hother : forall data, data <> key ->
            body (before ++ (key, v) :: after)%list data = body (before ++ after)%list data).
  { intros data Hne. unfold body, dict_getitem. rewrite dict_get_other by exact Hne.
    reflexivity. }
  assert (Hkey : body (before ++ (key, v) :: after)%list key = Return tt).
  { unfold body, dict_getitem. rewrite dict_get_fresh by tauto. cbn [bind].
    destruct v; try reflexivity; discriminate. }
  change (for_each (map fst before ++ key :: map fst after)
            (body (before ++ (key, v) :: after)%list)
          = for_each (map fst before ++ map fst after) (body (before ++ after)%list)).
  rewrite !for_each_app. cbn [for_each]. rewrite Hkey. cbn [bind].
  rewrite (for_each_ext (map fst before) (body (before ++ (key, v) :: after)%list)
             (body (before ++ after)%list))
    by (intros data Hin; apply Hother; intros ->; tauto).
  rewrite (for_each_ext (map fst after) (body (before ++ (key, v) :: after)%list)
             (body (before ++ after)%list))
    by (intros data Hin; apply Hother; intros ->; tauto).
  reflexivity.
Qed.

(** C7: [eventCheck] hands every member of the event that is a mapping to
    [eventDataCheck], with the member's key as the data type, and passes over
    every other member: a member that is not a mapping changes nothing unless
    it is one of the two mandatory keys, and in no case makes an event fail
    that is accepted without it. *)
Theorem eventCheck_routes_mappings (noCheck_hash : Z) (event_name : string) :
  (forall members,
      NoDup (dict_keys members) ->
      eventCheck noCheck_hash event_name (JDict members)
      = (genericCheck (JDict members) (event_entries noCheck_hash)
           ("top level event " ++ event_name) "Event" ;;
         for_each (mapping_members members) (fun '(data, collections) =>
           eventDataCheck event_name data collections)))
  /\ (forall before after key v,
         isinstance v py_dict = false ->
         ~ In key (dict_keys (before ++ after)) ->
         (key <> "event number" -> key <> "run number" ->
          eventCheck noCheck_hash event_name (JDict (before ++ (key, v) :: after))
          = eventCheck noCheck_hash event_name (JDict (before ++ after)))
         /\ (eventCheck noCheck_hash event_name (JDict (before ++ after)) = Return tt ->
             eventCheck noCheck_hash event_name (JDict (before ++ (key, v) :: after))
             = Return tt)).
Proof.
  split; [apply eventCheck_mapping_members|].
  intros before after key v Hv Hfresh.
  assert (Hloop := event_loop_skip before after key v (eventDataCheck event_name)
                     Hv Hfresh).
  unfold eventCheck. cbn [as_dict bind]. rewrite Hloop, !genericCheck_event.
  split.
  - intros Hne1 Hne2. rewrite !(dict_get_other before after key v) by congruence.
    reflexivity.
  - destruct (string_dec key "event number") as [->|Hne1].
    { rewrite (dict_get_absent (before ++ after) _ Hfresh). discriminate. }
    destruct (string_dec key "run number") as [->|Hne2].
    { rewrite (dict_get_absent (before ++ after) _ Hfresh).
      destruct (dict_get (before ++ after) "event number"); discriminate. }
    rewrite !(dict_get_other before after key v) by congruence. auto.
Qed.

(** ** Tracks *)

Lemma append_assoc (a b c : string) : (a ++ b) ++ c = a ++ b ++ c.
Proof. induction a as [|ch a IH]; simpl; [reflexivity | rewrite IH; reflexivity]. Qed.

Lemma floatListCheck_3_Return j name :
  floatListCheck j name 3 = Return tt <-> raw_triplet j = true.
Proof.
  rewrite floatListCheck_Return. split.
  - intros [items [-> [H Hlen]]]. specialize (Hlen ltac:(lia)).
    destruct items as [|x [|y [|z [|w more]]]]; simpl in Hlen; try lia.
    simpl in *. rewrite andb_true_r in H. rewrite <- andb_assoc. exact H.
  - intros H. destruct j as [| | | | |items|]; try discriminate.
    destruct items as [|x [|y [|z [|w more]]]]; try discriminate.
    eexists. split; [reflexivity|]. split; [|reflexivity].
    simpl in *. rewrite andb_true_r, andb_assoc. exact H.
Qed.

Lemma posAttributeCheck_Return positions name :
  posAttributeCheck positions name = Return tt
  <-> exists items, positions = JList items /\ forallb raw_triplet items = true.
Proof.
  unfold posAttributeCheck.
  destruct positions as [| | | | |items|];
    try (simpl; split; [discriminate | intros [? [[=] _]]]).
  cbn [genericTypeCheck isinstance type_of pytype_eqb orb negb bind as_list].
  rewrite (for_in_Return raw_triplet) by (intros; apply floatListCheck_3_Return).
  split; [eauto | intros [? [[= <-] H]]; exact H].
Qed.

Lemma tracks_entries_clean : Forall (fun '(_, e) => clean_entry e) tracks_entries.
Proof. clean_entries. Qed.

Lemma track_Return_pos_ok track objName :
  genericCheck track tracks_entries objName "Track" = Return tt ->
  track_pos_ok track = true.
Proof.
  intros Hgen. destruct (genericCheck_Return_dict _ _ _ _ Hgen) as [members ->].
  apply genericCheck_Return in Hgen. unfold tracks_entries in Hgen.
  apply Forall_cons_iff in Hgen as [[Hin Hpos] _].
  specialize (Hin eq_refl). unfold dict_in in Hin. unfold track_pos_ok.
  destruct (dict_get members "pos") as [pos|]; [|discriminate].
  specialize (Hpos pos eq_refl). cbn [unpack2 snd call] in Hpos.
  apply posAttributeCheck_Return in Hpos as [items [-> H]]. exact H.
Qed.

Lemma tracksCheck_list data_name items :
  tracksCheck data_name (JList items)
  = for_in items 1 (fun track n =>
      genericCheck track tracks_entries (data_name ++ ", track " ++ fmt_d n) "Track").
Proof. reflexivity. Qed.

(** The first entry of the table of Tracks decides for a track whose [pos]
    is missing or refused. *)
Lemma track_pos_first members objName :
  genericCheck (JDict members) tracks_entries objName "Track"
  = match dict_get members "pos" with
    | None => Raise (PhoenixFormatError ("Expected a 'pos' attribute in " ++ objName))
    | Some pos =>
        posAttributeCheck pos (objName ++ ", attribute 'pos'") ;;
        genericCheck (JDict members) (tl tracks_entries) objName "Track"
    end.
Proof.
  unfold genericCheck at 1. unfold tracks_entries at 1.
  cbn [for_each unpack2 truthy negb andb call]. unfold dict_in, dict_getitem.
  destruct (dict_get members "pos") as [pos|]; reflexivity.
Qed.

Lemma tracksCheck_at data_name before members after e :
  tracksCheck data_name (JList before) = Return tt ->
  genericCheck (JDict members) tracks_entries (track_name data_name before) "Track"
  = Raise e ->
  tracksCheck data_name (JList (before ++ JDict members :: after)) = Raise e.
Proof.
  intros Hbefore Hraise. rewrite tracksCheck_list in *.
  rewrite for_in_app, Hbefore. cbn [bind for_in]. unfold track_name in Hraise.
  rewrite Hraise. reflexivity.
Qed.

Lemma track_pos_refused members objName pos e :
  dict_get members "pos" = Some pos ->
  posAttributeCheck pos (objName ++ ", attribute 'pos'") = Raise e ->
  genericCheck (JDict members) tracks_entries objName "Track" = Raise e.
Proof. intros Hpos Hraise. rewrite track_pos_first, Hpos, Hraise. reflexivity. Qed.

Lemma posAttributeCheck_at good p rest name e :
  forallb raw_triplet good = true ->
  floatListCheck p (name ++ ", item " ++ fmt_d (Z.of_nat (length good))) 3 = Raise e ->
  posAttributeCheck (JList (good ++ p :: rest)) name = Raise e.
Proof.
  intros Hgood Hraise. unfold posAttributeCheck.
  cbn [genericTypeCheck isinstance type_of pytype_eqb orb negb bind as_list].
  rewrite for_in_app.
  rewrite (proj2 (for_in_Return raw_triplet good _
                    (fun x k _ => floatListCheck_3_Return x _) 0) Hgood).
  cbn [bind for_in]. rewrite Z.add_0_l, Hraise. reflexivity.
Qed.

Lemma floatCheck_first_failure nums c more name :
  forallb is_number nums = true ->
  is_number c = false ->
  forall n,
    for_in (nums ++ c :: more) n (fun item k => floatCheck item (name ++ ", item " ++ fmt_d k))
    = Raise (PhoenixFormatError
               ("Expected the " ++ name ++ ", item " ++ fmt_d (n + Z.of_nat (length nums))
                ++ " to be of type float or int, found " ++ type_name (type_of c))).
Proof.
  intros Hnums Hc n. rewrite for_in_app.
  rewrite (proj2 (for_in_Return is_number nums _
                    (fun x k _ => floatCheck_Return x _) n) Hnums).
  cbn [bind for_in]. unfold floatCheck at 1. unfold is_number in Hc.
  apply orb_false_iff in Hc as [-> ->]. cbn [negb andb bind].
  rewrite !append_assoc. reflexivity.
Qed.

(** C6, as the code has it: a list of Tracks with an item whose [pos] is
    missing or is not a list of lists of three numbers is refused with a
    [PhoenixFormatError].  The message is that of the first defect.  For a
    track that follows valid tracks: without [pos], the attribute is reported
    missing; with a [pos] that is not a list, its type is reported; and for
    the first position that is not a list of three numbers, its type is
    reported if it is not a list, the count expected, 3, and the count found
    if it is a list of another length, and the type of its first coordinate
    that is not a number otherwise. *)
Theorem tracksCheck_rejects_bad_pos (data_name : string) :
  (forall items,
      existsb (fun track => negb (track_pos_ok track)) items = true ->
      exists msg, tracksCheck data_name (JList items) = Raise (PhoenixFormatError msg))
  /\ (forall before members after,
         tracksCheck data_name (JList before) = Return tt ->
         (dict_get members "pos" = None ->
          tracksCheck data_name (JList (before ++ JDict members :: after))
          = Raise (PhoenixFormatError
                     ("Expected a 'pos' attribute in " ++ track_name data_name before)))
         /\ (forall pos,
                dict_get members "pos" = Some pos ->
                isinstance pos py_list = false ->
                tracksCheck data_name (JList (before ++ JDict members :: after))
                = Raise (PhoenixFormatError
                           ("Expected the " ++ track_name data_name before
                            ++ ", attribute 'pos' to be of type " ++ dquote ++ "list"
                            ++ dquote ++ ", found " ++ type_name (type_of pos))))
         /\ (forall good p rest,
                dict_get members "pos" = Some (JList (good ++ p :: rest)) ->
                forallb raw_triplet good = true ->
                (isinstance p py_list = false ->
                 tracksCheck data_name (JList (before ++ JDict members :: after))
                 = Raise (PhoenixFormatError
                            ("Expected the " ++ position_name data_name before good
                             ++ " to be of type " ++ dquote ++ "list" ++ dquote
                             ++ ", found " ++ type_name (type_of p))))
                /\ (forall position,
                       p = JList position ->
                       length position <> 3%nat ->
                       tracksCheck data_name (JList (before ++ JDict members :: after))
                       = Raise (PhoenixFormatError
                                  ("Expected 3 entries in "
                                   ++ position_name data_name before good ++ ", got "
                                   ++ fmt_d (Z.of_nat (length position)))))
                /\ (forall nums c more,
                       p = JList (nums ++ c :: more) ->
                       length (nums ++ c :: more) = 3%nat ->
                       forallb is_number nums = true ->
                       is_number c = false ->
                       tracksCheck data_name (JList (before ++ JDict members :: after))
                       = Raise (PhoenixFormatError
                                  ("Expected the " ++ position_name data_name before good
                                   ++ ", item " ++ fmt_d (Z.of_nat (length nums))
                                   ++ " to be of type float or int, found "
                                   ++ type_name (type_of c)))))).
Proof.
  split.
  { intros items Hbad. rewrite tracksCheck_list.
    apply (for_in_existsb track_pos_ok); [| |exact Hbad].
    - intros. apply genericCheck_clean, tracks_entries_clean.
    - intros track k Hno Hret. apply track_Return_pos_ok in Hret. congruence. }
  intros before members after Hbefore. split; [|split].
  - intros Hpos. apply tracksCheck_at; [exact Hbefore|].
    rewrite track_pos_first, Hpos. reflexivity.
  - intros pos Hpos Hlist. apply tracksCheck_at; [exact Hbefore|].
    apply (track_pos_refused _ _ _ _ Hpos). unfold posAttributeCheck, genericTypeCheck.
    rewrite Hlist. cbn [negb bind]. rewrite !append_assoc. reflexivity.
  - intros good p rest Hpos Hgood.
    assert (Hstep : forall e,
               floatListCheck p (position_name data_name before good) 3 = Raise e ->
               tracksCheck data_name (JList (before ++ JDict members :: after)) = Raise e).
    { intros e Hraise. apply tracksCheck_at; [exact Hbefore|].
      apply (track_pos_refused _ _ _ _ Hpos). apply posAttributeCheck_at; [exact Hgood|].
      unfold position_name in Hraise. rewrite <- Hraise. f_equal.
      rewrite !append_assoc. reflexivity. }
    split; [|split].
    + intros Hlist. apply Hstep. unfold floatListCheck, genericTypeCheck.
      rewrite Hlist. reflexivity.
    + intros position -> Hlen. apply Hstep. unfold floatListCheck.
      cbn [genericTypeCheck isinstance type_of pytype_eqb orb negb bind py_len as_list].
      destruct (Z.eqb_spec (Z.of_nat (length position)) 3) as [H|_]; [lia|].
      reflexivity.
    + intros nums c more -> Hlen Hnums Hc. apply Hstep. unfold floatListCheck.
      cbn [genericTypeCheck isinstance type_of pytype_eqb orb negb bind py_len as_list].
      rewrite Hlen. change (Z.of_nat 3 =? 3) with true. cbn [negb andb Z.leb Z.compare].
      rewrite floatCheck_first_failure by assumption. rewrite Z.add_0_l. reflexivity.
Qed.

(** ** What the checkers accept *)

Lemma passes_bind {A : Type} (c : result A) (k : A -> result unit) :
  passes (bind c k) = match c with Return a => passes (k a) | Raise _ => false end.
Proof. destruct c; reflexivity. Qed.

Lemma passes_for_in {A : Type} (P : A -> bool) (l : list A)
  (body : A -> Z -> result unit) :
  (forall x k, passes (body x k) = P x) ->
  forall n, passes (for_in l n body) = forallb P l.
Proof.
  intros H. induction l as [|x rest IH]; intros n; simpl; [reflexivity|].
  rewrite passes_seq, H, IH. reflexivity.
Qed.

Lemma passes_for_each {A : Type} (P : A -> bool) (l : list A)
  (body : A -> result unit) :
  (forall x, In x l -> passes (body x) = P x) ->
  passes (for_each l body) = forallb P l.
Proof.
  induction l as [|x rest IH]; intros H; simpl; [reflexivity|].
  rewrite passes_seq, H by (simpl; auto).
  rewrite IH by (intros; apply H; simpl; auto). reflexivity.
Qed.

Lemma forallb_pointwise {A : Type} (f g : A -> bool) (l : list A) :
  (forall x, f x = g x) -> forallb f l = forallb g l.
Proof.
  intros H. induction l as [|x rest IH]; simpl; [reflexivity|].
  rewrite H, IH. reflexivity.
Qed.

Lemma passes_genericTypeCheck j objName typ :
  passes (genericTypeCheck j objName typ) = isinstance j typ.
Proof. unfold genericTypeCheck. destruct (isinstance j typ); reflexivity. Qed.

Lemma passes_floatListCheck_any j name nitems :
  passes (floatListCheck j name nitems) = number_list nitems j.
Proof.
  unfold floatListCheck, number_list.
  destruct j as [| | | | |items|]; try reflexivity.
  cbn [genericTypeCheck isinstance type_of pytype_eqb orb negb bind py_len as_list].
  destruct (Z.leb_spec 0 nitems) as [Hn|Hn], (Z.ltb_spec nitems 0) as [Hm|Hm]; try lia;
    cbn [andb orb].
  - destruct (Z.of_nat (length items) =? nitems); cbn [negb].
    + rewrite andb_true_r.
      apply (passes_for_in is_number). intros. apply passes_floatCheck.
    + rewrite andb_false_r. reflexivity.
  - rewrite andb_true_r.
    apply (passes_for_in is_number). intros. apply passes_floatCheck.
Qed.

Lemma passes_posAttributeCheck j name :
  passes (posAttributeCheck j name) = list_of raw_triplet j.
Proof.
  unfold posAttributeCheck, list_of.
  destruct j as [| | | | |items|]; try reflexivity.
  cbn [genericTypeCheck isinstance type_of pytype_eqb orb negb bind as_list].
  apply (passes_for_in raw_triplet). intros x k.
  rewrite passes_floatListCheck_any. unfold number_list, raw_triplet.
  destruct x as [| | | | |coords|]; try reflexivity.
  destruct coords as [|x [|y [|z [|w more]]]];
    try (simpl; rewrite ?andb_false_r; reflexivity).
  - simpl. rewrite !andb_true_r, andb_assoc. reflexivity.
  - cbn [forallb]. cbn [Z.ltb Z.compare orb].
    destruct (Z.eqb_spec (Z.of_nat (length (x :: y :: z :: w :: more))) 3) as [H|_];
      [simpl length in H; lia|].
    apply andb_false_r.
Qed.

Lemma passes_genericCheck_nil members objName objType :
  passes (genericCheck (JDict members) [] objName objType) = true.
Proof. reflexivity. Qed.

(** One more tuple at the head of the schema asks one more thing. *)
Lemma passes_genericCheck_field members key optional (f : checker) (P : json -> bool)
  (d : schema) objName objType :
  (forall v name, passes (f v name) = P v) ->
  passes (genericCheck (JDict members)
            ((key, PyTuple2 (PyBool optional) (PyFunction f)) :: d) objName objType)
  = field_ok members key optional P
    && passes (genericCheck (JDict members) d objName objType).
Proof.
  intros Hf. unfold genericCheck, field_ok.
  cbn [for_each unpack2 truthy call]. rewrite passes_seq. f_equal.
  unfold dict_in, dict_getitem.
  destruct (dict_get members key) as [v|]; cbn [negb andb bind].
  - rewrite andb_false_r. apply Hf.
  - rewrite andb_true_r. destruct optional; reflexivity.
Qed.

Lemma passes_genericCheck_object j (d : schema) objName objType :
  passes (genericCheck j d objName objType)
  = object_of (fun m => passes (genericCheck (JDict m) d objName objType)) j.
Proof. destruct j; reflexivity. Qed.

Ltac field_checker :=
  intros;
  first [ apply passes_floatCheck
        | apply passes_colorAttributeCheck
        | apply passes_floatListCheck_any
        | apply passes_posAttributeCheck
        | apply passes_genericTypeCheck ].

Ltac schema_fields :=
  repeat (erewrite passes_genericCheck_field by field_checker);
  rewrite passes_genericCheck_nil, andb_true_r.

Lemma passes_list_checker data data_name start (body : json -> Z -> result unit)
  (P : json -> bool) :
  (forall x n, passes (body x n) = P x) ->
  passes (genericTypeCheck data data_name py_list ;;
          items <- as_list data ;; for_in items start body)
  = list_of P data.
Proof.
  intros Hbody. destruct data as [| | | | |items|]; try reflexivity.
  cbn [genericTypeCheck isinstance type_of pytype_eqb orb negb bind as_list list_of].
  apply passes_for_in, Hbody.
Qed.

Lemma passes_track track objName :
  passes (genericCheck track tracks_entries objName "Track") = valid_track track.
Proof.
  rewrite passes_genericCheck_object. unfold valid_track.
  destruct track; try reflexivity. cbn [object_of]. unfold tracks_entries.
  schema_fields. rewrite !andb_assoc. reflexivity.
Qed.

Lemma passes_tracksCheck data_name data :
  passes (tracksCheck data_name data) = list_of valid_track data.
Proof. apply passes_list_checker. intros. apply passes_track. Qed.

Lemma passes_jet x objName :
  passes (genericCheck x jets_entries objName "Jet") = valid_jet x.
Proof.
  rewrite passes_genericCheck_object. unfold valid_jet.
  destruct x; try reflexivity. cbn [object_of]. unfold jets_entries.
  schema_fields. rewrite !andb_assoc. reflexivity.
Qed.

Lemma passes_jetsCheck data_name data :
  passes (jetsCheck data_name data) = list_of valid_jet data.
Proof. apply passes_list_checker. intros. apply passes_jet. Qed.

Lemma passes_cluster x objName :
  passes (genericCheck x clusters_entries objName "CaloCluster/CaloCell") = valid_cluster x.
Proof.
  rewrite passes_genericCheck_object. unfold valid_cluster.
  destruct x; try reflexivity. cbn [object_of]. unfold clusters_entries.
  schema_fields. rewrite !andb_assoc. reflexivity.
Qed.

Lemma passes_clustersCheck data_name data :
  passes (clustersCheck data_name data) = list_of valid_cluster data.
Proof. apply passes_list_checker. intros. apply passes_cluster. Qed.

Lemma passes_vertex x objName :
  passes (genericCheck x vertices_entries objName "Vertex") = valid_vertex x.
Proof.
  rewrite passes_genericCheck_object. unfold valid_vertex.
  destruct x; try reflexivity. cbn [object_of]. unfold vertices_entries.
  schema_fields. rewrite !andb_assoc. reflexivity.
Qed.

Lemma passes_verticesCheck data_name data :
  passes (verticesCheck data_name data) = list_of valid_vertex data.
Proof. apply passes_list_checker. intros. apply passes_vertex. Qed.

Lemma passes_missingE x objName :
  passes (genericCheck x missingE_entries objName "MissingEnergy") = valid_missingE x.
Proof.
  rewrite passes_genericCheck_object. unfold valid_missingE.
  destruct x; try reflexivity. cbn [object_of]. unfold missingE_entries.
  schema_fields. rewrite !andb_assoc. reflexivity.
Qed.

Lemma passes_missingECheck data_name data :
  passes (missingECheck data_name data) = list_of valid_missingE data.
Proof. apply passes_list_checker. intros. apply passes_missingE. Qed.

Lemma passes_cell cell objName :
  passes (genericCheck cell planar_cellEntries objName "CaloCell") = valid_cell cell.
Proof.
  rewrite passes_genericCheck_object. unfold valid_cell.
  destruct cell; try reflexivity. cbn [object_of]. unfold planar_cellEntries.
  schema_fields. rewrite !andb_assoc. reflexivity.
Qed.

Lemma passes_planarCaloCheck data_name data :
  passes (planarCaloCheck data_name data) = valid_planar data.
Proof.
  unfold planarCaloCheck, valid_planar.
  destruct data as [| | | | | |members]; try reflexivity.
  cbn [genericTypeCheck isinstance type_of pytype_eqb orb negb bind object_of].
  rewrite passes_seq. unfold planar_entries. schema_fields.
  unfold py_getitem, dict_getitem, field_ok. cbn [as_dict bind].
  destruct (dict_get members "plane") as [plane|]; [|reflexivity].
  destruct (dict_get members "cells") as [cells|];
    [|rewrite !andb_false_r; reflexivity].
  destruct cells as [| | | | |items|]; try (rewrite !andb_false_r; reflexivity).
  cbn [bind as_list list_of]. change (is_list (JList items)) with true.
  rewrite andb_true_r. f_equal.
  apply passes_for_in. intros. apply passes_cell.
Qed.

Lemma passes_hitsCheck data_name data :
  passes (hitsCheck data_name data) = valid_hits data.
Proof.
  destruct data as [| | | | |items|]; try reflexivity.
  destruct items as [|first rest]; [reflexivity|].
  rewrite hitsCheck_cons. unfold valid_hits.
  destruct (isinstance first py_list); apply passes_for_in; intros;
    [apply hitsCheck_position_passes | apply hitsCheck_hit_passes].
Qed.

(** The table of checkers and the table of validity go name by name. *)
Lemma KnownDataTypes_validity data_type :
  match table_get KnownDataTypes data_type, table_get collection_validity data_type with
  | Some check_collection, Some valid =>
      forall data_name data, passes (check_collection data_name data) = valid data
  | None, None => True
  | _, _ => False
  end.
Proof.
  unfold KnownDataTypes, collection_validity. cbn [table_get].
  repeat match goal with
         | |- context [String.eqb ?a data_type] => destruct (String.eqb a data_type)
         end;
    auto using passes_tracksCheck, passes_jetsCheck, passes_hitsCheck,
      passes_clustersCheck, passes_planarCaloCheck, passes_verticesCheck,
      passes_missingECheck.
Qed.

Lemma passes_for_each_dict_items members (f : string -> json -> result unit) :
  NoDup (dict_keys members) ->
  passes (for_each (dict_keys members) (fun key => v <- dict_getitem members key ;; f key v))
  = forallb (fun '(key, v) => passes (f key v)) members.
Proof.
  intros Hnd. rewrite (for_each_dict_items members f Hnd).
  apply passes_for_each. intros [key v] _. reflexivity.
Qed.

Lemma passes_eventDataCheck event_name data_type data :
  NoDup (dict_keys data) ->
  passes (eventDataCheck event_name data_type data) = valid_data data_type data.
Proof.
  intros Hnd. unfold eventDataCheck, valid_data.
  pose proof (KnownDataTypes_validity data_type) as Htable.
  destruct (table_get KnownDataTypes data_type) as [check_collection|],
    (table_get collection_validity data_type) as [valid|]; try contradiction;
    [|reflexivity].
  rewrite (passes_for_each_dict_items data
             (fun collection_name collection =>
                check_collection
                  ("event '" ++ event_name ++ "', collection '" ++ collection_name ++ "'")
                  collection) Hnd).
  apply forallb_pointwise. intros [collection_name collection]. apply Htable.
Qed.

Lemma passes_eventCheck noCheck_hash event_name event :
  distinct_keys_event event ->
  passes (eventCheck noCheck_hash event_name event) = valid_event event.
Proof.
  intros Hdistinct. unfold eventCheck, valid_event.
  destruct event as [| | | | | |members]; try reflexivity.
  destruct Hdistinct as [Hnd Hinner].
  rewrite passes_seq, genericCheck_event. cbn [as_dict bind object_of].
  rewrite (passes_for_each_dict_items members
             (fun data v => match v with
                            | JDict collections =>
                                eventDataCheck event_name data collections
                            | _ => Return tt
                            end) Hnd).
  unfold dict_in.
  replace (forallb (fun '(key, v) =>
                      passes match v with
                             | JDict collections =>
                                 eventDataCheck event_name key collections
                             | _ => Return tt
                             end) members)
    with (forallb (fun '(key, v) =>
                     match v with
                     | JDict collections => valid_data key collections
                     | _ => true
                     end) members).
  - destruct (dict_get members "event number"), (dict_get members "run number");
      reflexivity.
  - clear Hnd. induction Hinner as [|[key v] rest Hv _ IH]; simpl; [reflexivity|].
    rewrite IH. f_equal. destruct v; try reflexivity.
    symmetry. apply passes_eventDataCheck, Hv.
Qed.

Lemma passes_check noCheck_hash events :
  distinct_keys_document events ->
  passes (check noCheck_hash (JDict events)) = valid_document (JDict events).
Proof.
  intros [Hnd Hinner]. unfold check, valid_document. cbn [object_of].
  rewrite (passes_for_each_dict_items events (eventCheck noCheck_hash) Hnd).
  clear Hnd. induction Hinner as [|[key event] rest Hevent _ IH]; simpl; [reflexivity|].
  rewrite IH, (passes_eventCheck _ _ _ Hevent). reflexivity.
Qed.

(** ** Further properties of the checkers *)

Lemma passes_clean_cases (r : result unit) :
  clean r -> r = Return tt \/ exists msg, r = Raise (PhoenixFormatError msg).
Proof. intros H. destruct (clean_cases _ H) as [[[] Hr]|Hr]; auto. Qed.

(** X1: [floatListCheck] returns exactly on a list of numbers whose length is
    [nitems], any negative [nitems] asking for no length; and a list of
    another length than a non-negative [nitems] is refused for its length,
    whatever it holds. *)
Theorem floatListCheck_contract (j : json) (name : string) (nitems : Z) :
  (floatListCheck j name nitems = Return tt <-> number_list nitems j = true)
  /\ (forall items,
         j = JList items ->
         0 <= nitems ->
         Z.of_nat (length items) <> nitems ->
         floatListCheck j name nitems
         = Raise (PhoenixFormatError
                    ("Expected " ++ fmt_d nitems ++ " entries in " ++ name ++ ", got "
                     ++ fmt_d (Z.of_nat (length items))))).
Proof.
  split.
  - rewrite <- passes_true, passes_floatListCheck_any. reflexivity.
  - intros items -> Hn Hlen. unfold floatListCheck.
    cbn [genericTypeCheck isinstance type_of pytype_eqb orb negb bind py_len as_list].
    destruct (Z.leb_spec 0 nitems) as [_|H]; [|lia].
    destruct (Z.eqb_spec (Z.of_nat (length items)) nitems) as [H|_]; [contradiction|].
    reflexivity.
Qed.

(** X2: [tracksCheck] returns exactly on a list of objects with a [pos] that
    is a list of lists of three numbers and, where present, a string [color],
    a [dparams] of five numbers and numbers [d0], [z0], [phi], [eta]; on
    anything else it raises a [PhoenixFormatError]. *)
Theorem tracksCheck_accepts (data_name : string) (data : json) :
  (tracksCheck data_name data = Return tt <-> list_of valid_track data = true)
  /\ (tracksCheck data_name data = Return tt
      \/ exists msg, tracksCheck data_name data = Raise (PhoenixFormatError msg)).
Proof.
  split; [rewrite <- passes_true, passes_tracksCheck; reflexivity|].
  apply passes_clean_cases, tracksCheck_clean.
Qed.

(** X3: [jetsCheck] returns exactly on a list of objects with numbers [eta]
    and [phi] and, where present, numbers [theta], [energy], [et], [coneR]
    and a string [color]; on anything else it raises a [PhoenixFormatError]. *)
Theorem jetsCheck_accepts (data_name : string) (data : json) :
  (jetsCheck data_name data = Return tt <-> list_of valid_jet data = true)
  /\ (jetsCheck data_name data = Return tt
      \/ exists msg, jetsCheck data_name data = Raise (PhoenixFormatError msg)).
Proof.
  split; [rewrite <- passes_true, passes_jetsCheck; reflexivity|].
  apply passes_clean_cases, jetsCheck_clean.
Qed.

(** X4: [clustersCheck], the checker of both [CaloClusters] and [CaloCells],
    returns exactly on a list of objects with numbers [energy], [phi] and
    [eta]; on anything else it raises a [PhoenixFormatError]. *)
Theorem clustersCheck_accepts (data_name : string) (data : json) :
  (clustersCheck data_name data = Return tt <-> list_of valid_cluster data = true)
  /\ (clustersCheck data_name data = Return tt
      \/ exists msg, clustersCheck data_name data = Raise (PhoenixFormatError msg))
  /\ table_get KnownDataTypes "CaloClusters" = Some clustersCheck
  /\ table_get KnownDataTypes "CaloCells" = Some clustersCheck.
Proof.
  split; [rewrite <- passes_true, passes_clustersCheck; reflexivity|].
  split; [apply passes_clean_cases, clustersCheck_clean|].
  split; reflexivity.
Qed.

(** X5: [planarCaloCheck] returns exactly on an object with a [plane] of four
    numbers and a list [cells] of objects with numbers [cellSize] and
    [energy], a [pos] of two numbers and, where present, a string [color]; on
    anything else it raises a [PhoenixFormatError]. *)
Theorem planarCaloCheck_accepts (data_name : string) (data : json) :
  (planarCaloCheck data_name data = Return tt <-> valid_planar data = true)
  /\ (planarCaloCheck data_name data = Return tt
      \/ exists msg, planarCaloCheck data_name data = Raise (PhoenixFormatError msg)).
Proof.
  split; [rewrite <- passes_true, passes_planarCaloCheck; reflexivity|].
  apply passes_clean_cases, planarCaloCheck_clean.
Qed.

(** X6: [verticesCheck] returns exactly on a list of objects with numbers
    [x], [y], [z] and, where present, a string [color]; on anything else it
    raises a [PhoenixFormatError]. *)
Theorem verticesCheck_accepts (data_name : string) (data : json) :
  (verticesCheck data_name data = Return tt <-> list_of valid_vertex data = true)
  /\ (verticesCheck data_name data = Return tt
      \/ exists msg, verticesCheck data_name data = Raise (PhoenixFormatError msg)).
Proof.
  split; [rewrite <- passes_true, passes_verticesCheck; reflexivity|].
  apply passes_clean_cases, verticesCheck_clean.
Qed.

(** X7: [missingECheck] returns exactly on a list of objects with numbers
    [etx] and [ety] and, where present, a string [color]; on anything else it
    raises a [PhoenixFormatError]. *)
Theorem missingECheck_accepts (data_name : string) (data : json) :
  (missingECheck data_name data = Return tt <-> list_of valid_missingE data = true)
  /\ (missingECheck data_name data = Return tt
      \/ exists msg, missingECheck data_name data = Raise (PhoenixFormatError msg)).
Proof.
  split; [rewrite <- passes_true, passes_missingECheck; reflexivity|].
  apply passes_clean_cases, missingECheck_clean.
Qed.

Lemma eventDataCheck_compound event_name data_type data :
  table_get KnownDataTypes data_type = Some compoundCheck ->
  eventDataCheck event_name data_type data = Return tt.
Proof.
  intros Htable. unfold eventDataCheck. rewrite Htable.
  apply for_each_Return, Forall_forall. intros collection_name Hin.
  destruct (dict_getitem_key _ _ Hin) as [v ->]. reflexivity.
Qed.

(** X8: under [Muons], [Photons] and [Electrons] nothing is checked:
    [eventDataCheck] returns whatever the collections are. *)
Theorem eventDataCheck_compound_unchecked (event_name : string)
  (data : list (string * json)) :
  eventDataCheck event_name "Muons" data = Return tt
  /\ eventDataCheck event_name "Photons" data = Return tt
  /\ eventDataCheck event_name "Electrons" data = Return tt.
Proof. repeat split; apply eventDataCheck_compound; reflexivity. Qed.

(** X9: [eventDataCheck] returns exactly when the data type is one of the
    table and every collection is valid for it. *)
Theorem eventDataCheck_accepts (event_name data_type : string)
  (data : list (string * json)) :
  NoDup (dict_keys data) ->
  (eventDataCheck event_name data_type data = Return tt
   <-> valid_data data_type data = true).
Proof.
  intros Hnd. rewrite <- passes_true, passes_eventDataCheck by exact Hnd. reflexivity.
Qed.

(** X10: [eventCheck] returns exactly on an object with the keys
    [event number] and [run number] whose members that are objects are valid
    data of the type their key names. *)
Theorem eventCheck_accepts (noCheck_hash : Z) (event_name : string) (event : json) :
  distinct_keys_event event ->
  (eventCheck noCheck_hash event_name event = Return tt <-> valid_event event = true).
Proof.
  intros Hd. rewrite <- passes_true, passes_eventCheck by exact Hd. reflexivity.
Qed.

(** X11: [check] returns exactly on the valid documents: an object all of
    whose members are valid events. *)
Theorem check_accepts (noCheck_hash : Z) (events : list (string * json)) :
  distinct_keys_document events ->
  (check noCheck_hash (JDict events) = Return tt
   <-> valid_document (JDict events) = true).
Proof.
  intros Hd. rewrite <- passes_true, passes_check by exact Hd. reflexivity.
Qed.

Lemma forallb_Permutation {A : Type} (f : A -> bool) (l l' : list A) :
  Permutation l l' -> forallb f l = forallb f l'.
Proof.
  induction 1 as [|x l l' _ IH|x y l|l l' l'' _ IH1 _ IH2]; simpl.
  - reflexivity.
  - rewrite IH. reflexivity.
  - rewrite !andb_assoc, (andb_comm (f y) (f x)). reflexivity.
  - rewrite IH1. exact IH2.
Qed.

Lemma dict_in_keys key members :
  dict_in key members = true <-> In key (dict_keys members).
Proof.
  unfold dict_in. split.
  - induction members as [|[k v] rest IH]; simpl; [discriminate|].
    destruct (String.eqb_spec k key) as [->|_]; auto.
  - intros H. destruct (dict_get_In_keys _ _ H) as [v ->]. reflexivity.
Qed.

Lemma dict_in_Permutation key members members' :
  Permutation members members' -> dict_in key members = dict_in key members'.
Proof.
  intros Hperm.
  assert (Hiff : dict_in key members = true <-> dict_in key members' = true).
  { rewrite !dict_in_keys. unfold dict_keys.
    split; apply Permutation_in; [|symmetry]; apply Permutation_map, Hperm. }
  destruct (dict_in key members), (dict_in key members'); try reflexivity;
    [symmetry|]; apply Hiff; reflexivity.
Qed.

(** X12: whether a document is accepted does not depend on the order of its
    events, nor whether an event is accepted on the order of its members. *)
Theorem acceptance_order_independent (noCheck_hash : Z) :
  (forall events events',
      distinct_keys_document events ->
      Permutation events events' ->
      (check noCheck_hash (JDict events) = Return tt
       <-> check noCheck_hash (JDict events') = Return tt))
  /\ (forall event_name members members',
         distinct_keys_event (JDict members) ->
         Permutation members members' ->
         (eventCheck noCheck_hash event_name (JDict members) = Return tt
          <-> eventCheck noCheck_hash event_name (JDict members') = Return tt)).
Proof.
  split.
  - intros events events' [Hnd Hinner] Hperm.
    assert (Hd' : distinct_keys_document events').
    { split.
      - apply (Permutation_NoDup (l:=dict_keys events)); [|exact Hnd].
        apply Permutation_map, Hperm.
      - apply (Permutation_Forall Hperm), Hinner. }
    rewrite <- !passes_true, (passes_check _ _ (conj Hnd Hinner)), (passes_check _ _ Hd').
    unfold valid_document. cbn [object_of].
    rewrite (forallb_Permutation _ _ _ Hperm). reflexivity.
  - intros event_name members members' [Hnd Hinner] Hperm.
    assert (Hd' : distinct_keys_event (JDict members')).
    { split.
      - apply (Permutation_NoDup (l:=dict_keys members)); [|exact Hnd].
        apply Permutation_map, Hperm.
      - apply (Permutation_Forall Hperm), Hinner. }
    rewrite <- !passes_true,
      (passes_eventCheck _ _ (JDict members) (conj Hnd Hinner)),
      (passes_eventCheck _ _ (JDict members') Hd').
    unfold valid_event. cbn [object_of].
    rewrite (forallb_Permutation _ _ _ Hperm),
      (dict_in_Permutation "event number" _ _ Hperm),
      (dict_in_Permutation "run number" _ _ Hperm).
    reflexivity.
Qed.

Lemma table_get_unknown data_type :
  ~ In data_type recognized_tags -> table_get KnownDataTypes data_type = None.
Proof.
  intros Hout. unfold KnownDataTypes. cbn [table_get].
  repeat match goal with
         | |- context [String.eqb ?a data_type] =>
             destruct (String.eqb_spec a data_type) as [<-|_];
             [exfalso; apply Hout; simpl; tauto|]
         end.
  reflexivity.
Qed.

(** X13: a member of an event that is an object under a key that is no name
    of data type makes [eventCheck] raise a [PhoenixFormatError], whatever the
    object holds and whatever else the event holds. *)
Theorem eventCheck_refuses_unknown_member (noCheck_hash : Z) (event_name : string)
  (members : list (string * json)) (key : string) (collections : list (string * json)) :
  NoDup (dict_keys members) ->
  In (key, JDict collections) members ->
  ~ In key recognized_tags ->
  exists msg,
    eventCheck noCheck_hash event_name (JDict members) = Raise (PhoenixFormatError msg).
Proof.
  intros Hnd Hin Hout.
  destruct (passes_clean_cases _ (eventCheck_clean noCheck_hash event_name (JDict members)))
    as [Hret|Hraise]; [exfalso | exact Hraise].
  rewrite (eventCheck_mapping_members _ _ _ Hnd) in Hret.
  apply bind_Return_inv in Hret as [[] [_ Hloop]].
  rewrite for_each_Return, Forall_forall in Hloop.
  specialize (Hloop (key, collections)).
  cbn beta iota in Hloop. unfold eventDataCheck in Hloop.
  rewrite (table_get_unknown _ Hout) in Hloop.
  assert (Hmem : In (key, collections) (mapping_members members)).
  { unfold mapping_members. apply in_flat_map.
    exists (key, JDict collections). split; [exact Hin | simpl; auto]. }
  specialize (Hloop Hmem). discriminate.
Qed.

Lemma for_in_first_bad {A : Type} (P : A -> bool) (before : list A) (x : A)
  (after : list A) (body : A -> Z -> result unit) (start : Z) (e : exn) :
  (forall y k, passes (body y k) = P y) ->
  forallb P before = true ->
  body x (start + Z.of_nat (length before)) = Raise e ->
  for_in (before ++ x :: after) start body = Raise e.
Proof.
  intros Hbody Hbefore Hx. rewrite for_in_app.
  assert (Hret : for_in before start body = Return tt).
  { apply passes_true. rewrite (passes_for_in P) by exact Hbody. exact Hbefore. }
  rewrite Hret. cbn [bind for_in]. rewrite Hx. reflexivity.
Qed.

(** X14: a list of hits is read as its first element says.  After raw
    triplets, an element that is not a list is refused under the name of the
    collection alone, without its position; after typed hits, an element that
    is not an object is refused under the name of the collection and its
    index, counted from 0. *)
Theorem hitsCheck_mixed_representation (data_name : string) (first : json)
  (before : list json) (p : json) (after : list json) :
  (isinstance first py_list = true ->
   forallb raw_triplet (first :: before) = true ->
   isinstance p py_list = false ->
   hitsCheck data_name (JList ((first :: before) ++ p :: after))
   = Raise (PhoenixFormatError
              ("Expected the " ++ data_name ++ " to be of type " ++ dquote ++ "list"
               ++ dquote ++ ", found " ++ type_name (type_of p))))
  /\ (isinstance first py_list = false ->
      forallb typed_hit (first :: before) = true ->
      isinstance p py_dict = false ->
      hitsCheck data_name (JList ((first :: before) ++ p :: after))
      = Raise (PhoenixFormatError
                 ("Expected Hit to be dictionaries. Not the case for " ++ data_name
                  ++ ", hit " ++ fmt_d (Z.of_nat (length (first :: before)))))).
Proof.
  split; intros Hfirst Hbefore Hp.
  - change ((first :: before) ++ p :: after)%list
      with (first :: (before ++ p :: after))%list.
    rewrite hitsCheck_cons, Hfirst.
    change (first :: (before ++ p :: after))%list
      with ((first :: before) ++ p :: after)%list.
    apply (for_in_first_bad raw_triplet); [|exact Hbefore|].
    + intros. apply hitsCheck_position_passes.
    + unfold hitsCheck_position, genericTypeCheck. rewrite Hp. reflexivity.
  - change ((first :: before) ++ p :: after)%list
      with (first :: (before ++ p :: after))%list.
    rewrite hitsCheck_cons, Hfirst.
    change (first :: (before ++ p :: after))%list
      with ((first :: before) ++ p :: after)%list.
    apply (for_in_first_bad typed_hit); [|exact Hbefore|].
    + intros. apply hitsCheck_hit_passes.
    + rewrite Z.add_0_l. unfold hitsCheck_hit.
      destruct p; try discriminate Hp; reflexivity.
Qed.

Lemma list_checker_first_bad (P : json -> bool) before x after data_name start
  (body : json -> Z -> result unit) e :
  (forall y k, passes (body y k) = P y) ->
  list_of P (JList before) = true ->
  body x (start + Z.of_nat (length before)) = Raise e ->
  (genericTypeCheck (JList (before ++ x :: after)) data_name py_list ;;
   items <- as_list (JList (before ++ x :: after)) ;; for_in items start body)
  = Raise e.
Proof.
  intros Hbody Hbefore Hx.
  cbn [genericTypeCheck isinstance type_of pytype_eqb orb negb bind as_list].
  exact (for_in_first_bad P before x after body start e Hbody Hbefore Hx).
Qed.

Lemma genericCheck_not_dict j (d : schema) objName objType :
  isinstance j py_dict = false ->
  genericCheck j d objName objType
  = Raise (PhoenixFormatError
             ("Expected " ++ objType ++ " to be dictionaries. Not the case for "
              ++ objName)).
Proof. destruct j; try reflexivity. discriminate. Qed.

(** X15: the item that follows valid items and is not an object is refused
    under its number in the list, which counts from 1 for Tracks and Jets and
    from 0 for clusters, vertices and missing-energy objects. *)
Theorem item_numbering (data_name : string) (before : list json) (x : json)
  (after : list json) :
  isinstance x py_dict = false ->
  (list_of valid_track (JList before) = true ->
   tracksCheck data_name (JList (before ++ x :: after))
   = Raise (PhoenixFormatError
              ("Expected Track to be dictionaries. Not the case for " ++ data_name
               ++ ", track " ++ fmt_d (1 + Z.of_nat (length before)))))
  /\ (list_of valid_jet (JList before) = true ->
      jetsCheck data_name (JList (before ++ x :: after))
      = Raise (PhoenixFormatError
                 ("Expected Jet to be dictionaries. Not the case for " ++ data_name
                  ++ ", jet " ++ fmt_d (1 + Z.of_nat (length before)))))
  /\ (list_of valid_cluster (JList before) = true ->
      clustersCheck data_name (JList (before ++ x :: after))
      = Raise (PhoenixFormatError
                 ("Expected CaloCluster/CaloCell to be dictionaries. Not the case for "
                  ++ data_name ++ ", entry " ++ fmt_d (Z.of_nat (length before)))))
  /\ (list_of valid_vertex (JList before) = true ->
      verticesCheck data_name (JList (before ++ x :: after))
      = Raise (PhoenixFormatError
                 ("Expected Vertex to be dictionaries. Not the case for " ++ data_name
                  ++ ", vertex " ++ fmt_d (Z.of_nat (length before)))))
  /\ (list_of valid_missingE (JList before) = true ->
      missingECheck data_name (JList (before ++ x :: after))
      = Raise (PhoenixFormatError
                 ("Expected MissingEnergy to be dictionaries. Not the case for "
                  ++ data_name ++ ", object " ++ fmt_d (Z.of_nat (length before))))).
Proof.
  intros Hx. repeat split; intros Hbefore.
  - apply (list_checker_first_bad valid_track); [|exact Hbefore|].
    + intros. apply passes_track.
    + apply genericCheck_not_dict, Hx.
  - apply (list_checker_first_bad valid_jet); [|exact Hbefore|].
    + intros. apply passes_jet.
    + apply genericCheck_not_dict, Hx.
  - apply (list_checker_first_bad valid_cluster); [|exact Hbefore|].
    + intros. apply passes_cluster.
    + rewrite Z.add_0_l. apply genericCheck_not_dict, Hx.
  - apply (list_checker_first_bad valid_vertex); [|exact Hbefore|].
    + intros. apply passes_vertex.
    + rewrite Z.add_0_l. apply genericCheck_not_dict, Hx.
  - apply (list_checker_first_bad valid_missingE); [|exact Hbefore|].
    + intros. apply passes_missingE.
    + rewrite Z.add_0_l. apply genericCheck_not_dict, Hx.
Qed.

Lemma py_eq_str_true j s : py_eq_str j s = true <-> j = JStr s.
Proof.
  destruct j; simpl; try (split; [discriminate | intros [=]]).
  rewrite String.eqb_eq. split; [intros -> | intros [= ->]]; reflexivity.
Qed.

(** X16: [genericCheck] reports in the order of the schema, not of the keys
    of the value: when the entries before one are satisfied, that entry's
    mandatory key, if missing, is the one reported, and the exception of its
    checker on a value that is there is the one raised, whatever entries
    follow. *)
Theorem genericCheck_schema_order (members : list (string * json)) (d1 : schema)
  (key : string) (e : entry) (d2 : schema) (objName objType : string) :
  genericCheck (JDict members) d1 objName objType = Return tt ->
  (truthy (fst (unpack2 e)) = false ->
   dict_in key members = false ->
   genericCheck (JDict members) (d1 ++ (key, e) :: d2)%list objName objType
   = Raise (PhoenixFormatError ("Expected a '" ++ key ++ "' attribute in " ++ objName)))
  /\ (forall v err,
         dict_get members key = Some v ->
         call (snd (unpack2 e)) v (objName ++ ", attribute '" ++ key ++ "'") = Raise err ->
         genericCheck (JDict members) (d1 ++ (key, e) :: d2)%list objName objType = Raise err).
Proof.
  intros Hd1. unfold genericCheck in *. rewrite for_each_app, Hd1.
  cbn [bind for_each]. destruct (unpack2 e) as [isOpt chk]. cbn [fst snd].
  split.
  - intros -> ->. reflexivity.
  - intros v err Hget Hcall. unfold dict_in, dict_getitem. rewrite Hget.
    rewrite andb_false_r. cbn [bind]. rewrite Hcall. reflexivity.
Qed.

(** X17: [hitTypeCheck] returns exactly on the strings [Point], [Box] and
    [Line], and refuses any other string with a message that quotes it. *)
Theorem hitTypeCheck_contract (j : json) (name : string) :
  (hitTypeCheck j name = Return tt
   <-> j = JStr "Point" \/ j = JStr "Box" \/ j = JStr "Line")
  /\ (forall s,
         j = JStr s ->
         s <> "Point" -> s <> "Box" -> s <> "Line" ->
         hitTypeCheck j name
         = Raise (PhoenixFormatError
                    ("Invalid hit type " ++ dquote ++ s ++ dquote ++ " in " ++ name
                     ++ ". Valid values are Point, Line and Box"))).
Proof.
  split.
  - rewrite <- passes_true, passes_hitTypeCheck, !orb_true_iff, !py_eq_str_true.
    tauto.
  - intros s -> H1 H2 H3. unfold hitTypeCheck, py_eq_str.
    apply String.eqb_neq in H1, H2, H3. rewrite H1, H2, H3. reflexivity.
Qed.

(** ** Order of the traversal, and the table of checkers *)

Lemma for_in_first_raise {A : Type} (l : list A) (body : A -> Z -> result unit) :
  forall n, for_in l n body = first_raise (map (fun '(k, x) => body x k) (numbered n l)).
Proof.
  induction l as [|x rest IH]; intros n; simpl; [reflexivity|].
  destruct (body x n) as [[]|e]; simpl; auto.
Qed.

Lemma genericCheck_first_raise members (d : schema) objName objType :
  genericCheck (JDict members) d objName objType
  = first_raise (map (entry_outcome members objName) d).
Proof.
  unfold genericCheck. rewrite for_each_first_raise. f_equal.
  apply map_ext. intros [key e]. unfold entry_outcome, dict_in, dict_getitem.
  destruct (unpack2 e) as [isOpt chk].
  destruct (dict_get members key) as [v|]; cbn [negb andb bind].
  - rewrite andb_false_r. reflexivity.
  - rewrite andb_true_r. destruct (truthy isOpt); reflexivity.
Qed.

Lemma planarCaloCheck_first_raise data_name members :
  planarCaloCheck data_name (JDict members)
  = first_raise
      (genericCheck (JDict members) planar_entries data_name "PlanarCaloCells"
       :: match dict_get members "cells" with
          | Some (JList cells) =>
              map (fun '(n, cell) =>
                     genericCheck cell planar_cellEntries
                       (data_name ++ ", cell " ++ fmt_d n) "CaloCell")
                (numbered 0 cells)
          | _ => []
          end).
Proof.
  unfold planarCaloCheck.
  cbn [genericTypeCheck isinstance type_of pytype_eqb orb negb bind first_raise].
  destruct (genericCheck (JDict members) planar_entries data_name "PlanarCaloCells")
    as [[]|e] eqn:Hgen; [|reflexivity].
  cbn [bind]. apply genericCheck_Return in Hgen. unfold planar_entries in Hgen.
  apply Forall_cons_iff in Hgen as [_ Hgen].
  apply Forall_cons_iff in Hgen as [[Hin Hcells] _].
  specialize (Hin eq_refl). unfold dict_in in Hin.
  unfold py_getitem, dict_getitem. cbn [as_dict bind].
  destruct (dict_get members "cells") as [cells|]; [|discriminate].
  specialize (Hcells cells eq_refl). cbn [unpack2 snd call] in Hcells.
  apply genericTypeCheck_Return, isinstance_list in Hcells as [items ->].
  cbn [bind as_list]. apply for_in_first_raise.
Qed.

(** C3: [check] returns or raises a [PhoenixFormatError], nothing else, and
    what it raises is the first exception in the order of the traversal, at
    every level of it: of the events of the document; within an event, of the
    check of the mandatory keys and then of its mapping members; within a
    member, of its collections under the checker of the data type; within a
    collection, of its items in the order of the list, numbered as the
    checker numbers them; within an item, of the entries of its schema in the
    order of the table; within a [pos], of its positions, and within a list of
    numbers, of its items, in order.  An exception of a nested check is the
    exception of the check around it. *)
Theorem check_fail_fast (noCheck_hash : Z) :
  (forall topJson,
      check noCheck_hash topJson = Return tt
      \/ exists msg, check noCheck_hash topJson = Raise (PhoenixFormatError msg))
  /\ (forall events,
         NoDup (dict_keys events) ->
         check noCheck_hash (JDict events)
         = first_raise (map (fun '(eventKey, event) =>
                               eventCheck noCheck_hash eventKey event) events))
  /\ (forall event_name members,
         NoDup (dict_keys members) ->
         eventCheck noCheck_hash event_name (JDict members)
         = first_raise
             (genericCheck (JDict members) (event_entries noCheck_hash)
                ("top level event " ++ event_name) "Event"
              :: map (fun '(data, collections) =>
                        eventDataCheck event_name data collections)
                   (mapping_members members)))
  /\ (forall event_name data_type check_collection data,
         NoDup (dict_keys data) ->
         table_get KnownDataTypes data_type = Some check_collection ->
         eventDataCheck event_name data_type data
         = first_raise
             (map (fun '(collection_name, collection) =>
                     check_collection
                       ("event '" ++ event_name ++ "', collection '"
                        ++ collection_name ++ "'") collection)
                data))
  /\ (forall members (d : schema) objName objType,
         genericCheck (JDict members) d objName objType
         = first_raise (map (entry_outcome members objName) d))
  /\ (forall data_name items,
         tracksCheck data_name (JList items)
         = first_raise
             (map (fun '(n, track) =>
                     genericCheck track tracks_entries
                       (data_name ++ ", track " ++ fmt_d n) "Track")
                (numbered 1 items)))
  /\ (forall data_name items,
         jetsCheck data_name (JList items)
         = first_raise
             (map (fun '(n, jet) =>
                     genericCheck jet jets_entries
                       (data_name ++ ", jet " ++ fmt_d n) "Jet")
                (numbered 1 items)))
  /\ (forall data_name first rest,
         hitsCheck data_name (JList (first :: rest))
         = if isinstance first py_list
           then first_raise
                  (map (fun '(n, position) => hitsCheck_position data_name position n)
                     (numbered 0 (first :: rest)))
           else first_raise
                  (map (fun '(n, hit) => hitsCheck_hit data_name hit n)
                     (numbered 0 (first :: rest))))
  /\ (forall data_name x y z n,
         hitsCheck_position data_name (JList [x; y; z]) n
         = first_raise
             [ floatCheck x ((data_name ++ ", position " ++ fmt_d n) ++ ", coordinate x");
               floatCheck y ((data_name ++ ", position " ++ fmt_d n) ++ ", coordinate y");
               floatCheck z ((data_name ++ ", position " ++ fmt_d n) ++ ", coordinate z") ])
  /\ (forall data_name hit n e,
         genericCheck hit hits_entries (data_name ++ ", hit " ++ fmt_d n) "Hit" = Raise e ->
         hitsCheck_hit data_name hit n = Raise e)
  /\ (forall data_name items,
         clustersCheck data_name (JList items)
         = first_raise
             (map (fun '(n, item) =>
                     genericCheck item clusters_entries
                       (data_name ++ ", entry " ++ fmt_d n) "CaloCluster/CaloCell")
                (numbered 0 items)))
  /\ (forall data_name members,
         planarCaloCheck data_name (JDict members)
         = first_raise
             (genericCheck (JDict members) planar_entries data_name "PlanarCaloCells"
              :: match dict_get members "cells" with
                 | Some (JList cells) =>
                     map (fun '(n, cell) =>
                            genericCheck cell planar_cellEntries
                              (data_name ++ ", cell " ++ fmt_d n) "CaloCell")
                       (numbered 0 cells)
                 | _ => []
                 end))
  /\ (forall data_name items,
         verticesCheck data_name (JList items)
         = first_raise
             (map (fun '(n, item) =>
                     genericCheck item vertices_entries
                       (data_name ++ ", vertex " ++ fmt_d n) "Vertex")
                (numbered 0 items)))
  /\ (forall data_name items,
         missingECheck data_name (JList items)
         = first_raise
             (map (fun '(n, item) =>
                     genericCheck item missingE_entries
                       (data_name ++ ", object " ++ fmt_d n) "MissingEnergy")
                (numbered 0 items)))
  /\ (forall positions name,
         posAttributeCheck (JList positions) name
         = first_raise
             (map (fun '(n, pos) => floatListCheck pos (name ++ ", item " ++ fmt_d n) 3)
                (numbered 0 positions)))
  /\ (forall items name nitems,
         floatListCheck (JList items) name nitems
         = if (0 <=? nitems) && negb (Z.of_nat (length items) =? nitems)
           then Raise (PhoenixFormatError
                         ("Expected " ++ fmt_d nitems ++ " entries in " ++ name
                          ++ ", got " ++ fmt_d (Z.of_nat (length items))))
           else first_raise
                  (map (fun '(n, item) => floatCheck item (name ++ ", item " ++ fmt_d n))
                     (numbered 0 items))).
Proof.
  split; [|split; [|split; [|split]]].
  - intros topJson.
    destruct (clean_cases _ (check_clean noCheck_hash topJson)) as [[[] H]|[msg H]];
      eauto.
  - intros events Hnd. unfold check.
    rewrite (for_each_dict_items events (eventCheck noCheck_hash) Hnd).
    apply for_each_first_raise.
  - intros event_name members Hnd.
    rewrite (eventCheck_mapping_members _ _ _ Hnd), for_each_first_raise.
    cbn [first_raise].
    destruct (genericCheck (JDict members) (event_entries noCheck_hash)
                ("top level event " ++ event_name) "Event"); reflexivity.
  - intros event_name data_type check_collection data Hnd Htable.
    unfold eventDataCheck. rewrite Htable.
    rewrite (for_each_dict_items data
               (fun collection_name collection =>
                  check_collection
                    ("event '" ++ event_name ++ "', collection '"
                     ++ collection_name ++ "'") collection) Hnd).
    apply for_each_first_raise.
  - repeat split; intros.
    + apply genericCheck_first_raise.
    + apply (for_in_first_raise items).
    + apply (for_in_first_raise items).
    + rewrite hitsCheck_cons.
      destruct (isinstance first py_list); apply for_in_first_raise.
    + unfold hitsCheck_position.
      cbn [genericTypeCheck isinstance type_of pytype_eqb orb negb bind py_len as_list
           length py_index nth_error first_raise].
      change (negb (Z.of_nat 3 =? 3)) with false. cbv iota.
      destruct (floatCheck x _) as [[]|?]; [|reflexivity].
      destruct (floatCheck y _) as [[]|?]; [|reflexivity].
      destruct (floatCheck z _) as [[]|?]; reflexivity.
    + unfold hitsCheck_hit.
      match goal with H : genericCheck _ _ _ _ = Raise _ |- _ => rewrite H end.
      reflexivity.
    + apply (for_in_first_raise items).
    + apply planarCaloCheck_first_raise.
    + apply (for_in_first_raise items).
    + apply (for_in_first_raise items).
    + apply (for_in_first_raise positions).
    + unfold floatListCheck.
      cbn [genericTypeCheck isinstance type_of pytype_eqb orb negb bind py_len as_list].
      destruct ((0 <=? nitems) && negb (Z.of_nat (length items) =? nitems));
        [reflexivity | apply for_in_first_raise].
Qed.

(** C4: a tag outside the eleven names makes [eventDataCheck] raise the
    message that quotes it, whatever the value holds; for each of the eleven,
    the collections of the value go, in order, to the checker the table gives
    for the tag.  The table gives [tracksCheck] for [Tracks], [jetsCheck] for
    [Jets], [hitsCheck] for [Hits], [clustersCheck] for [CaloClusters] and
    [CaloCells], [planarCaloCheck] for [PlanarCaloCells], [verticesCheck] for
    [Vertices], [missingECheck] for [MissingEnergy] and [compoundCheck] for
    [Muons], [Photons] and [Electrons]; so the value is accepted exactly when
    every collection is valid for the data type of the tag. *)
Theorem eventDataCheck_dispatch (event_name data_type : string)
  (data : list (string * json)) :
  (~ In data_type recognized_tags ->
   eventDataCheck event_name data_type data
   = Raise (PhoenixFormatError ("Unknown data type found : '" ++ data_type ++ "'")))
  /\ (In data_type recognized_tags ->
      exists check_collection,
        table_get KnownDataTypes data_type = Some check_collection
        /\ eventDataCheck event_name data_type data
           = for_each (dict_keys data) (fun collection_name =>
               collection <- dict_getitem data collection_name ;;
               check_collection
                 ("event '" ++ event_name ++ "', collection '" ++ collection_name ++ "'")
                 collection))
  /\ dict_keys KnownDataTypes = recognized_tags
  /\ length recognized_tags = 11%nat
  /\ (table_get KnownDataTypes "Tracks" = Some tracksCheck
      /\ table_get KnownDataTypes "Jets" = Some jetsCheck
      /\ table_get KnownDataTypes "Hits" = Some hitsCheck
      /\ table_get KnownDataTypes "CaloClusters" = Some clustersCheck
      /\ table_get KnownDataTypes "CaloCells" = Some clustersCheck
      /\ table_get KnownDataTypes "PlanarCaloCells" = Some planarCaloCheck
      /\ table_get KnownDataTypes "Vertices" = Some verticesCheck
      /\ table_get KnownDataTypes "MissingEnergy" = Some missingECheck
      /\ table_get KnownDataTypes "Muons" = Some compoundCheck
      /\ table_get KnownDataTypes "Photons" = Some compoundCheck
      /\ table_get KnownDataTypes "Electrons" = Some compoundCheck)
  /\ (NoDup (dict_keys data) ->
      (eventDataCheck event_name data_type data = Return tt
       <-> valid_data data_type data = true)).
Proof.
  split; [|split; [|split; [|split; [|split]]]]; try reflexivity.
  - intros Hout. unfold eventDataCheck, KnownDataTypes. cbn [table_get].
    repeat match goal with
           | |- context [String.eqb ?a data_type] =>
               destruct (String.eqb_spec a data_type) as [<-|_];
               [exfalso; apply Hout; simpl; tauto|]
           end.
    reflexivity.
  - intros Hin. unfold eventDataCheck.
    simpl in Hin.
    repeat (destruct Hin as [<-|Hin]; [eexists; split; reflexivity|]).
    contradiction.
  - repeat split; reflexivity.
  - intros Hnd. rewrite <- passes_true, passes_eventDataCheck by exact Hnd. reflexivity.
Qed.

End Checker.

(** ** Concrete runs *)

Example hits_raw_triplets_pass :
  hitsCheck no_repr "c"
    (JList [JList [one; JInt 2; JInt 3]; JList [JInt 4; JInt 5; JInt 6]])
  = Return tt.
Proof. reflexivity. Qed.

Example hits_default_point_passes :
  hitsCheck no_repr "c" (JList [JDict [("pos", JList [JInt 1; JInt 2; JInt 3])]])
  = Return tt.
Proof. reflexivity. Qed.

Example hits_line_of_three_fails :
  hitsCheck no_repr "c"
    (JList [JDict [("type", JStr "Line"); ("pos", JList [JInt 1; JInt 2; JInt 3])]])
  = Raise (PhoenixFormatError "Expected 6 coordinates per Hit in c. Found 3 in hit 0").
Proof. reflexivity. Qed.

Example hits_box_of_six_passes :
  hitsCheck no_repr "c"
    (JList [JDict [("type", JStr "Box");
                   ("pos", JList [JInt 0; JInt 0; JInt 0; JInt 1; JInt 1; JInt 1])]])
  = Return tt.
Proof. reflexivity. Qed.

Example planar_plane_of_three_fails :
  check no_repr 4242
    (JDict [("e1", JDict [("event number", JInt 1); ("run number", JInt 2);
                          ("PlanarCaloCells",
                           JDict [("p", JDict [("plane", JList [JInt 1; JInt 2; JInt 3]);
                                               ("cells", JList [])])])])])
  = Raise (PhoenixFormatError
             "Expected 4 entries in event 'e1', collection 'p', attribute 'plane', got 3").
Proof. vm_compute. reflexivity. Qed.

Example top_level_list_fails :
  check no_repr 4242 (JList []) = Raise (PhoenixFormatError "Expected a dictionary at top level").
Proof. reflexivity. Qed.

(** A mandatory key that holds a mapping passes the check of the keys and is
    then taken for a data type. *)
Example run_number_mapping_is_unknown_data_type :
  check no_repr 4242
    (JDict [("e1", JDict [("event number", JInt 1); ("run number", JDict [])])])
  = Raise (PhoenixFormatError "Unknown data type found : 'run number'").
Proof. vm_compute. reflexivity. Qed.

Lemma eventCheck_mandatory_keys_witness :
  eventCheck no_repr 4242 "e1" (JDict [("run number", JInt 7)])
  = Raise (PhoenixFormatError "Expected a 'event number' attribute in top level event e1")
  /\ eventCheck no_repr 4242 "e1" (JDict [("event number", JInt 7)])
     = Raise (PhoenixFormatError "Expected a 'run number' attribute in top level event e1")
  /\ genericCheck (JDict [("event number", JNone); ("run number", JList [])])
       (event_entries 4242) "top level event e1" "Event" = Return tt.
Proof.
  split; [|split].
  - apply (proj1 (proj2 (eventCheck_mandatory_keys no_repr 4242 "e1"
                           [("run number", JInt 7)]))).
    reflexivity.
  - apply (proj1 (proj2 (proj2 (eventCheck_mandatory_keys no_repr 4242 "e1"
                                  [("event number", JInt 7)])))); reflexivity.
  - apply (proj2 (proj2 (proj2 (eventCheck_mandatory_keys no_repr 4242 "e1"
                                  [("event number", JNone); ("run number", JList [])]))));
      reflexivity.
Defined.

Definition three_tracks : list json :=
  [ JDict [("color", JInt 0)];
    JDict [("pos", JList [])];
    JDict [("pos", JNone)] ].

Lemma check_fail_fast_witness :
  check no_repr 4242 (JDict three_events)
  = first_raise (map (fun '(eventKey, event) => eventCheck no_repr 4242 eventKey event)
                   three_events)
  /\ check no_repr 4242 (JDict three_events)
     = Raise (PhoenixFormatError "Expected a 'run number' attribute in top level event e2")
  /\ tracksCheck "t" (JList three_tracks)
     = first_raise
         (map (fun '(n, track) =>
                 genericCheck track tracks_entries ("t" ++ ", track " ++ fmt_d n) "Track")
            (numbered 1 three_tracks))
  /\ tracksCheck "t" (JList three_tracks)
     = Raise (PhoenixFormatError "Expected a 'pos' attribute in t, track 1")
  /\ check no_repr 4242
       (JDict [("e1", JDict [("event number", JInt 1); ("run number", JInt 2);
                             ("Tracks", JDict [("t", JList three_tracks)]);
                             ("Jets", JDict [("j", JList [JDict []; JDict []])])])])
     = Raise (PhoenixFormatError
                "Expected a 'pos' attribute in event 'e1', collection 't', track 1")
  /\ jetsCheck "j" (JList [JDict [("eta", JInt 1); ("phi", JInt 2)]; JDict []])
     = Raise (PhoenixFormatError "Expected a 'eta' attribute in j, jet 2").
Proof.
  split; [|split; [|split; [|split; [|split]]]].
  - apply (proj1 (proj2 (check_fail_fast no_repr 4242))).
    unfold three_events. simpl.
    repeat (constructor; [simpl; intuition discriminate|]). constructor.
  - vm_compute. reflexivity.
  - apply (proj1 (proj2 (proj2 (proj2 (proj2 (proj2 (check_fail_fast no_repr 4242))))))).
  - rewrite (proj1 (proj2 (proj2 (proj2 (proj2 (proj2 (check_fail_fast no_repr 4242)))))) "t").
    vm_compute. reflexivity.
  - vm_compute. reflexivity.
  - rewrite (proj1 (proj2 (proj2 (proj2 (proj2 (proj2 (proj2
               (check_fail_fast no_repr 4242))))))) "j").
    vm_compute. reflexivity.
Defined.

Lemma eventDataCheck_dispatch_witness :
  eventDataCheck no_repr "e1" "Tracs" [("t", JList [])]
  = Raise (PhoenixFormatError "Unknown data type found : 'Tracs'")
  /\ (exists check_collection,
        table_get (KnownDataTypes no_repr) "CaloCells" = Some check_collection
        /\ eventDataCheck no_repr "e1" "CaloCells" [("c", JList [])]
           = for_each (dict_keys [("c", JList [])]) (fun collection_name =>
               collection <- dict_getitem [("c", JList [])] collection_name ;;
               check_collection
                 ("event '" ++ "e1" ++ "', collection '" ++ collection_name ++ "'")
                 collection))
  /\ eventDataCheck no_repr "e1" "Tracks" [("t", JList [JDict [("pos", JList [])]])]
     = Return tt
  /\ valid_data "Jets" [("t", JList [JDict [("pos", JList [])]])] = false
  /\ eventDataCheck no_repr "e1" "Jets" [("t", JList [JDict [("pos", JList [])]])]
     = Raise (PhoenixFormatError
                "Expected a 'eta' attribute in event 'e1', collection 't', jet 1").
Proof.
  split; [|split; [|split; [|split]]].
  - apply (proj1 (eventDataCheck_dispatch no_repr "e1" "Tracs" [("t", JList [])])).
    simpl. intuition discriminate.
  - apply (proj1 (proj2 (eventDataCheck_dispatch no_repr "e1" "CaloCells"
                           [("c", JList [])]))).
    simpl. tauto.
  - assert (Hnd : NoDup (dict_keys [("t", JList [JDict [("pos", JList [])]])])).
    { simpl. constructor; [simpl; tauto | constructor]. }
    apply (proj2 (proj2 (proj2 (proj2 (proj2 (proj2
             (eventDataCheck_dispatch no_repr "e1" "Tracks"
                [("t", JList [JDict [("pos", JList [])]])]))))) Hnd)).
    reflexivity.
  - reflexivity.
  - vm_compute. reflexivity.
Defined.

Lemma genericCheck_ignores_unlisted_keys_witness :
  genericCheck (JDict [("eta", JInt 1); ("extra", JStr "x"); ("phi", JInt 2)])
    jets_entries "jet 1" "Jet"
  = genericCheck (JDict [("eta", JInt 1); ("phi", JInt 2)]) jets_entries "jet 1" "Jet".
Proof.
  apply genericCheck_ignores_unlisted_keys.
  intros key Hin. simpl in Hin.
  repeat (destruct Hin as [<-|Hin]; [reflexivity|]). contradiction.
Defined.

(** C6 as stated fails: a track without [pos] is refused, and the message is
    about the missing attribute, not about a count of 3 entries; the same for
    a [pos] that is not a list and for a position that holds a string. *)
Lemma tracksCheck_missing_pos_message :
  track_pos_ok (JDict []) = false
  /\ tracksCheck "Tracks" (JList [JDict []])
     = Raise (PhoenixFormatError "Expected a 'pos' attribute in Tracks, track 1")
  /\ cites_triplet_length (tracksCheck "Tracks" (JList [JDict []])) = false
  /\ cites_triplet_length (tracksCheck "Tracks" (JList [JDict [("pos", JStr "x")]]))
     = false
  /\ cites_triplet_length
       (tracksCheck "Tracks"
          (JList [JDict [("pos", JList [JList [JInt 1; JInt 2; JStr "a"]])]]))
     = false.
Proof. repeat split; vm_compute; reflexivity. Qed.

Lemma tracksCheck_rejects_bad_pos_witness :
  (exists msg,
      tracksCheck "Tracks" (JList [JDict [("pos", JList [])]; JDict [("pos", JNone)]])
      = Raise (PhoenixFormatError msg))
  /\ tracksCheck "Tracks" (JList [JDict [("pos", JList [])]; JDict [("color", JStr "red")]])
     = Raise (PhoenixFormatError "Expected a 'pos' attribute in Tracks, track 2")
  /\ tracksCheck "Tracks"
       (JList [JDict [("pos", JList [JList [JInt 1; JInt 2; JInt 3]; JList [JInt 4]])]])
     = Raise (PhoenixFormatError
                "Expected 3 entries in Tracks, track 1, attribute 'pos', item 1, got 1").
Proof.
  split; [|split].
  - apply (proj1 (tracksCheck_rejects_bad_pos "Tracks")). reflexivity.
  - apply (proj1 (proj2 (tracksCheck_rejects_bad_pos "Tracks")
                    [JDict [("pos", JList [])]] [("color", JStr "red")] [] eq_refl)).
    reflexivity.
  - apply (proj1 (proj2 (proj2 (proj2 (proj2 (tracksCheck_rejects_bad_pos "Tracks")
             [] [("pos", JList [JList [JInt 1; JInt 2; JInt 3]; JList [JInt 4]])] []
             eq_refl))
             [JList [JInt 1; JInt 2; JInt 3]] (JList [JInt 4]) [] eq_refl eq_refl))
             [JInt 4] eq_refl).
    simpl. lia.
Defined.

Lemma eventCheck_routes_mappings_witness :
  eventCheck no_repr 4242 "e1"
    (JDict [("event number", JInt 1); ("comment", JStr "x"); ("run number", JInt 2)])
  = eventCheck no_repr 4242 "e1" (JDict [("event number", JInt 1); ("run number", JInt 2)])
  /\ eventCheck no_repr 4242 "e1"
       (JDict [("event number", JInt 1); ("run number", JInt 2);
               ("Vertices", JDict [("v", JList [])])])
     = (genericCheck
          (JDict [("event number", JInt 1); ("run number", JInt 2);
                  ("Vertices", JDict [("v", JList [])])])
          (event_entries 4242) "top level event e1" "Event" ;;
        for_each [("Vertices", [("v", JList [])])] (fun '(data, collections) =>
          eventDataCheck no_repr "e1" data collections)).
Proof.
  split.
  - apply (proj1 (proj2 (eventCheck_routes_mappings no_repr 4242 "e1")
                    [("event number", JInt 1)] [("run number", JInt 2)] "comment"
                    (JStr "x") eq_refl
                    ltac:(simpl; intuition discriminate)));
      discriminate.
  - apply (proj1 (eventCheck_routes_mappings no_repr 4242 "e1")).
    simpl. repeat (constructor; [simpl; intuition discriminate|]). constructor.
Defined.

(** ** Concrete runs of the further properties *)

Ltac distinct_strings :=
  simpl; repeat (constructor; [simpl; intuition discriminate|]); constructor.

Ltac distinct_keys :=
  repeat match goal with
         | |- _ /\ _ => split
         | |- NoDup _ => distinct_strings
         | |- Forall _ _ => constructor
         | |- True => exact I
         | _ => progress simpl
         end.

Lemma floatListCheck_contract_witness :
  floatListCheck (JList [JStr "a"; JInt 1]) "plane" 4
  = Raise (PhoenixFormatError "Expected 4 entries in plane, got 2").
Proof.
  apply (proj2 (floatListCheck_contract (JList [JStr "a"; JInt 1]) "plane" 4)
           [JStr "a"; JInt 1] eq_refl); simpl; lia.
Defined.

Lemma eventDataCheck_accepts_witness :
  eventDataCheck no_repr "e1" "Jets"
    [("anti-kt", JList [JDict [("eta", JInt 1); ("phi", JBool true)]]); ("none", JList [])]
  = Return tt.
Proof.
  apply (proj2 (eventDataCheck_accepts no_repr "e1" "Jets"
                  [("anti-kt", JList [JDict [("eta", JInt 1); ("phi", JBool true)]]);
                   ("none", JList [])]
                  ltac:(distinct_strings))).
  reflexivity.
Defined.

Lemma eventCheck_accepts_witness :
  eventCheck no_repr 4242 "e1" sample_event = Return tt
  /\ valid_event short_event = false.
Proof.
  split; [|reflexivity].
  apply (proj2 (eventCheck_accepts no_repr 4242 "e1" sample_event
                  ltac:(unfold sample_event; distinct_keys))).
  reflexivity.
Defined.

Lemma check_accepts_witness :
  check no_repr 4242 (JDict [("e1", sample_event); ("e2", sample_event)]) = Return tt.
Proof.
  apply (proj2 (check_accepts no_repr 4242 [("e1", sample_event); ("e2", sample_event)]
                  ltac:(unfold distinct_keys_document, sample_event; distinct_keys))).
  reflexivity.
Defined.

Lemma acceptance_order_independent_witness :
  check no_repr 4242 (JDict [("e1", sample_event); ("e2", short_event)]) = Return tt
  <-> check no_repr 4242 (JDict [("e2", short_event); ("e1", sample_event)]) = Return tt.
Proof.
  apply (proj1 (acceptance_order_independent no_repr 4242)).
  - unfold distinct_keys_document, sample_event, short_event. distinct_keys.
  - apply perm_swap.
Defined.

Lemma eventCheck_refuses_unknown_member_witness :
  exists msg,
    eventCheck no_repr 4242 "e1"
      (JDict [("event number", JInt 1); ("run number", JInt 2); ("meta", JDict [])])
    = Raise (PhoenixFormatError msg).
Proof.
  apply (eventCheck_refuses_unknown_member no_repr 4242 "e1"
           [("event number", JInt 1); ("run number", JInt 2); ("meta", JDict [])]
           "meta" []).
  - distinct_strings.
  - simpl. tauto.
  - simpl. intuition discriminate.
Defined.

Lemma hitsCheck_mixed_representation_witness :
  hitsCheck no_repr "h" (JList [JList [JInt 1; JInt 2; JInt 3]; JDict []])
  = Raise (PhoenixFormatError
             ("Expected the h to be of type " ++ dquote ++ "list" ++ dquote
              ++ ", found dict"))
  /\ hitsCheck no_repr "h"
       (JList [JDict [("pos", JList [JInt 1; JInt 2; JInt 3])]; JList []])
     = Raise (PhoenixFormatError "Expected Hit to be dictionaries. Not the case for h, hit 1").
Proof.
  split.
  - apply (proj1 (hitsCheck_mixed_representation no_repr "h"
                    (JList [JInt 1; JInt 2; JInt 3]) [] (JDict []) []));
      reflexivity.
  - apply (proj2 (hitsCheck_mixed_representation no_repr "h"
                    (JDict [("pos", JList [JInt 1; JInt 2; JInt 3])]) [] (JList []) []));
      reflexivity.
Defined.

Lemma item_numbering_witness :
  jetsCheck "j" (JList [JDict [("eta", JInt 1); ("phi", JInt 2)]; JInt 5])
  = Raise (PhoenixFormatError "Expected Jet to be dictionaries. Not the case for j, jet 2")
  /\ verticesCheck "v"
       (JList [JDict [("x", JInt 1); ("y", JInt 2); ("z", JInt 3)]; JInt 5])
     = Raise (PhoenixFormatError
                "Expected Vertex to be dictionaries. Not the case for v, vertex 1").
Proof.
  split.
  - apply (proj1 (proj2 (item_numbering "j" [JDict [("eta", JInt 1); ("phi", JInt 2)]]
                           (JInt 5) [] eq_refl))).
    reflexivity.
  - apply (proj1 (proj2 (proj2 (proj2
             (item_numbering "v" [JDict [("x", JInt 1); ("y", JInt 2); ("z", JInt 3)]]
                (JInt 5) [] eq_refl))))).
    reflexivity.
Defined.

Lemma genericCheck_schema_order_witness :
  genericCheck (JDict [("phi", JStr "x")]) jets_entries "jet 1" "Jet"
  = Raise (PhoenixFormatError "Expected a 'eta' attribute in jet 1").
Proof.
  apply (proj1 (genericCheck_schema_order [("phi", JStr "x")] [] "eta"
                  (PyTuple2 (PyBool false) (PyFunction floatCheck)) (tl jets_entries)
                  "jet 1" "Jet" eq_refl));
    reflexivity.
Defined.

Lemma hitTypeCheck_contract_witness :
  hitTypeCheck no_repr (JStr "point") "hit 0"
  = Raise (PhoenixFormatError
             ("Invalid hit type " ++ dquote ++ "point" ++ dquote
              ++ " in hit 0. Valid values are Point, Line and Box")).
Proof.
  apply (proj2 (hitTypeCheck_contract no_repr (JStr "point") "hit 0") "point" eq_refl);
    discriminate.
Defined.
